(** * elhub_sdk.xml_parser: decomposition of a poll response

    A shallow embedding of [src/elhub_sdk/xml_parser.py].  The function
    [parse_metering_poll_response] calls [xmltodict.parse] and then walks the
    resulting tree of dicts, lists, strings and [None].  The tree walk is modelled
    here on a type of Python values, with Python's exceptions made explicit
    in an error monad; the parts of the Python runtime the code calls
    ([dict.get], truthiness, iteration, [int], [datetime.strptime],
    [datetime + timedelta], [datetime.isoformat]) are modelled in the
    modules [Py] and [Datetime]. *)

From Stdlib Require Import ZArith String List Ascii Bool Lia.
Import ListNotations.
Local Open Scope string_scope.
Local Open Scope list_scope.
Local Open Scope Z_scope.

(** ** Python values, exceptions and the operations the parser uses *)

Module Py.

(** The values [xmltodict.parse] builds and the parser returns.  A dict is
    kept as the list of its items in insertion order: the parser reads
    [list(e.values())[1]], so the order is observable. *)
#[warnings="-register-all"]
Inductive pyval : Type :=
| PNone : pyval
| PStr (s : string) : pyval
| PDict (items : list (string * pyval)) : pyval
| PList (elems : list pyval) : pyval.

(** The exceptions that can leave the parser. [PyException msg] is a direct
    instance of [Exception], as raised by [raise Exception(msg)]. *)
Inductive pyerr : Type :=
| AttributeError
| TypeError
| ValueError
| IndexError
| OverflowError
| PyException (msg : string).

Inductive result (A : Type) : Type :=
| Ok (a : A)
| Raise (e : pyerr).
Arguments Ok {A} a.
Arguments Raise {A} e.

Definition bind {A B} (r : result A) (k : A -> result B) : result B :=
  match r with
  | Ok a => k a
  | Raise e => Raise e
  end.

Notation "x <- r ;; k" := (bind r (fun x => k))
  (at level 61, r at next level, right associativity).

(** [[f(x) for x in xs]]: the elements are visited in order and the first
    exception aborts the comprehension. *)
Fixpoint comprehension {A B} (f : A -> result B) (xs : list A) : result (list B) :=
  match xs with
  | [] => Ok []
  | x :: xs' =>
      y <- f x ;;
      ys <- comprehension f xs' ;;
      Ok (y :: ys)
  end.

Fixpoint lookup (k : string) (items : list (string * pyval)) : option pyval :=
  match items with
  | [] => None
  | (k', v) :: rest => if String.eqb k k' then Some v else lookup k rest
  end.

(** [d[k] = v] on a dict: an existing key keeps its position. *)
Fixpoint setitem (k : string) (v : pyval) (items : list (string * pyval))
  : list (string * pyval) :=
  match items with
  | [] => [(k, v)]
  | (k', v') :: rest =>
      if String.eqb k k' then (k', v) :: rest else (k', v') :: setitem k v rest
  end.

(** [x.get(k, default)].  Only a dict has a [get] attribute. *)
Definition get_default (x : pyval) (k : string) (default : pyval) : result pyval :=
  match x with
  | PDict items =>
      match lookup k items with
      | Some v => Ok v
      | None => Ok default
      end
  | _ => Raise AttributeError
  end.

(** [x.get(k)] *)
Definition get (x : pyval) (k : string) : result pyval := get_default x k PNone.

(** [bool(x)], as tested by [if x] and [not x]. *)
Definition truthy (x : pyval) : bool :=
  match x with
  | PNone => false
  | PStr s => negb (String.eqb s "")
  | PDict items => match items with [] => false | _ => true end
  | PList elems => match elems with [] => false | _ => true end
  end.

(** [isinstance(x, dict)] *)
Definition isinstance_dict (x : pyval) : bool :=
  match x with
  | PDict _ => true
  | _ => false
  end.

(** [iter(x)], the sequence a [for] loop runs over: the elements of a list,
    the keys of a dict, the characters of a string; [None] is not
    iterable. *)
Definition iter (x : pyval) : result (list pyval) :=
  match x with
  | PList elems => Ok elems
  | PDict items => Ok (map (fun kv => PStr (fst kv)) items)
  | PStr s => Ok (map (fun c => PStr (String c EmptyString)) (list_ascii_of_string s))
  | PNone => Raise TypeError
  end.

(** [list(x.values())] *)
Definition values (x : pyval) : result (list pyval) :=
  match x with
  | PDict items => Ok (map snd items)
  | _ => Raise AttributeError
  end.

(** [xs[i]] on a list, for a natural index. *)
Definition index (xs : list pyval) (i : nat) : result pyval :=
  match nth_error xs i with
  | Some v => Ok v
  | None => Raise IndexError
  end.

(** *** [int(s)] on text

    Base ten, as in CPython 3.11: surrounding white space is dropped, one
    sign is allowed, the digits may be grouped by single underscores, and
    a text with more than 4300 digits is refused.  The model is exact on
    ASCII text.  Python also reads the decimal digits and the white space
    of the rest of Unicode, by the tables of its Unicode version; the
    model refuses every text with a character outside ASCII, so what it
    accepts Python accepts with the same value, and a refusal is
    Python's refusal when the text is ASCII ([ascii_text]). *)

Definition is_ascii (c : ascii) : bool := (nat_of_ascii c <? 128)%nat.

Definition ascii_text (s : string) : Prop :=
  forallb is_ascii (list_ascii_of_string s) = true.

Definition is_digit (c : ascii) : bool :=
  let n := nat_of_ascii c in (48 <=? n)%nat && (n <=? 57)%nat.

Definition digit_value (c : ascii) : Z := Z.of_nat (nat_of_ascii c) - 48.

Definition is_space (c : ascii) : bool :=
  let n := nat_of_ascii c in
  ((9 <=? n)%nat && (n <=? 13)%nat) || (n =? 32)%nat.

Fixpoint lstrip (s : list ascii) : list ascii :=
  match s with
  | c :: r => if is_space c then lstrip r else s
  | [] => []
  end.

Definition strip (s : list ascii) : list ascii :=
  rev (lstrip (rev (lstrip s))).

(** Digits with single underscores between them; [acc] is the value read
    so far, [after_digit] says whether the previous character was a
    digit. *)
Fixpoint digits_value (s : list ascii) (acc : Z) (after_digit : bool) : option Z :=
  match s with
  | [] => if after_digit then Some acc else None
  | c :: r =>
      if is_digit c then digits_value r (acc * 10 + digit_value c) true
      else if Ascii.eqb c "_"%char then
             if after_digit then digits_value r acc false else None
      else None
  end.

(** [sys.get_int_max_str_digits()], by default *)
Definition MAX_STR_DIGITS : Z := 4300.

Definition int_of_chars (s : list ascii) : result Z :=
  let body := strip s in
  let signed :=
    match body with
    | c :: r =>
        if Ascii.eqb c "-"%char then (true, r)
        else if Ascii.eqb c "+"%char then (false, r)
        else (false, body)
    | [] => (false, [])
    end in
  match digits_value (snd signed) 0 false with
  | Some n =>
      if MAX_STR_DIGITS <? Z.of_nat (length (filter is_digit (snd signed)))
      then Raise ValueError
      else Ok (if fst signed then - n else n)
  | None => Raise ValueError
  end.

(** [int(x)] for the values the tree can hold. *)
Definition int (x : pyval) : result Z :=
  match x with
  | PStr s => int_of_chars (list_ascii_of_string s)
  | _ => Raise TypeError
  end.

End Py.
Import Py.

(** ** The [datetime] operations of the metering decomposer *)

Module Datetime.

(** An aware [datetime] with a fixed-offset [timezone].  The format the
    parser reads has no fraction of a second, so the microsecond field of
    every datetime it handles is zero and is left out.  [utcoffset] is the
    offset of the zone in microseconds. *)
Record datetime : Type := mkDatetime {
  year : Z;
  month : Z;
  day : Z;
  hour : Z;
  minute : Z;
  second : Z;
  utcoffset : Z
}.

(** A normalised [timedelta] without its microseconds. *)
Record timedelta : Type := mkTimedelta {
  days : Z;
  seconds : Z
}.

Definition MAXORDINAL : Z := 3652059.
Definition MAXYEAR : Z := 9999.

(** *** The proleptic Gregorian calendar *)

Definition is_leap (y : Z) : bool :=
  (y mod 4 =? 0) && (negb (y mod 100 =? 0) || (y mod 400 =? 0)).

Definition days_before_year (y : Z) : Z :=
  let p := y - 1 in p * 365 + p / 4 - p / 100 + p / 400.

Definition DAYS_IN_MONTH : list Z :=
  [-1; 31; 28; 31; 30; 31; 30; 31; 31; 30; 31; 30; 31].

Definition DAYS_BEFORE_MONTH : list Z :=
  [-1; 0; 31; 59; 90; 120; 151; 181; 212; 243; 273; 304; 334].

Definition table (t : list Z) (m : Z) : Z := nth (Z.to_nat m) t 0.

Definition days_in_month (y m : Z) : Z :=
  if (m =? 2) && is_leap y then 29 else table DAYS_IN_MONTH m.

Definition days_before_month (y m : Z) : Z :=
  table DAYS_BEFORE_MONTH m + (if (2 <? m) && is_leap y then 1 else 0).

Definition ymd2ord (y m d : Z) : Z :=
  days_before_year y + days_before_month y m + d.

Definition DI400Y : Z := 146097.
Definition DI100Y : Z := 36524.
Definition DI4Y : Z := 1461.

Definition ord2ymd (ordinal : Z) : Z * Z * Z :=
  let n := ordinal - 1 in
  let n400 := n / DI400Y in
  let n := n mod DI400Y in
  let y := n400 * 400 + 1 in
  let n100 := n / DI100Y in
  let n := n mod DI100Y in
  let n4 := n / DI4Y in
  let n := n mod DI4Y in
  let n1 := n / 365 in
  let n := n mod 365 in
  let y := y + n100 * 100 + n4 * 4 + n1 in
  if (n1 =? 4) || (n100 =? 4) then (y - 1, 12, 31)
  else
    let leapyear := (n1 =? 3) && (negb (n4 =? 24) || (n100 =? 3)) in
    let m := Z.shiftr (n + 50) 5 in
    let preceding :=
      table DAYS_BEFORE_MONTH m + (if (2 <? m) && leapyear then 1 else 0) in
    if n <? preceding then
      let m' := m - 1 in
      let preceding' :=
        preceding
        - (table DAYS_IN_MONTH m' + (if (m' =? 2) && leapyear then 1 else 0)) in
      (y, m', n - preceding' + 1)
    else (y, m, n - preceding + 1).

(** The checks of the [date], [time] and [timezone] constructors. *)
Definition valid_date (y m d : Z) : bool :=
  (1 <=? y) && (y <=? MAXYEAR) && (1 <=? m) && (m <=? 12)
  && (1 <=? d) && (d <=? days_in_month y m).

Definition valid_time (h mi s : Z) : bool :=
  (0 <=? h) && (h <=? 23) && (0 <=? mi) && (mi <=? 59) && (0 <=? s) && (s <=? 59).

Definition MAXOFFSET : Z := 24 * 3600 * 1000000 - 1.

Definition valid_offset (off : Z) : bool :=
  (- MAXOFFSET <=? off) && (off <=? MAXOFFSET).

Definition valid (dt : datetime) : bool :=
  valid_date (year dt) (month dt) (day dt)
  && valid_time (hour dt) (minute dt) (second dt)
  && valid_offset (utcoffset dt).

Definition toordinal (dt : datetime) : Z := ymd2ord (year dt) (month dt) (day dt).

(** *** [timedelta(hours=k)] and [datetime + timedelta] *)

Definition timedelta_hours (k : Z) : result timedelta :=
  let s := k * 3600 in
  let d := s / 86400 in
  if 999999999 <? Z.abs d then Raise OverflowError
  else Ok (mkTimedelta d (s mod 86400)).

Definition add (dt : datetime) (other : timedelta) : result datetime :=
  let s := hour dt * 3600 + minute dt * 60 + second dt + seconds other in
  let d := toordinal dt + days other + s / 86400 in
  let s := s mod 86400 in
  if 999999999 <? Z.abs d then Raise OverflowError
  else
    let h := s / 3600 in
    let rem := s mod 3600 in
    if (0 <? d) && (d <=? MAXORDINAL) then
      let '(y, m, d') := ord2ymd d in
      Ok (mkDatetime y m d' h (rem / 60) (rem mod 60) (utcoffset dt))
    else Raise OverflowError.

(** *** [datetime.isoformat()] *)

Definition digit (d : Z) : ascii := ascii_of_nat (48 + Z.to_nat d).

(** ["%0<w>d" % n] for [0 <= n < 10 ^ w], which is all the formatting of a
    valid datetime needs. *)
Fixpoint zero_padded (w : nat) (n : Z) : list ascii :=
  match w with
  | O => []
  | S w' => zero_padded w' (n / 10) ++ [digit (n mod 10)]
  end.

Definition US_PER_SECOND : Z := 1000000.
Definition US_PER_MINUTE : Z := 60 * US_PER_SECOND.
Definition US_PER_HOUR : Z := 60 * US_PER_MINUTE.

Definition format_offset (off : Z) : list ascii :=
  let sign := if off <? 0 then "-"%char else "+"%char in
  let off := Z.abs off in
  let hh := off / US_PER_HOUR in
  let mm := off mod US_PER_HOUR in
  let ss := mm mod US_PER_MINUTE in
  let mm := mm / US_PER_MINUTE in
  [sign] ++ zero_padded 2 hh ++ [":"%char] ++ zero_padded 2 mm
  ++ (if ss =? 0 then []
      else [":"%char] ++ zero_padded 2 (ss / US_PER_SECOND)
           ++ (if ss mod US_PER_SECOND =? 0 then []
               else ["."%char] ++ zero_padded 6 (ss mod US_PER_SECOND))).

Definition isoformat_chars (dt : datetime) : list ascii :=
  zero_padded 4 (year dt) ++ ["-"%char] ++ zero_padded 2 (month dt)
  ++ ["-"%char] ++ zero_padded 2 (day dt) ++ ["T"%char]
  ++ zero_padded 2 (hour dt) ++ [":"%char] ++ zero_padded 2 (minute dt)
  ++ [":"%char] ++ zero_padded 2 (second dt)
  ++ format_offset (utcoffset dt).

Definition isoformat (dt : datetime) : string :=
  string_of_list_ascii (isoformat_chars dt).

(** *** [datetime.strptime(s, "%Y-%m-%dT%H:%M:%S%z")]

    [strptime] turns the format into a regular expression, takes the
    first match of it at the start of the text (Python's matcher
    backtracks through the alternatives from left to right), and rejects
    the text when the match does not cover all of it.  A [rx] gives, for a
    text, the matches of an expression in that order, each with the text
    it matched and the text left over.

    As for [int], the model is exact on ASCII text.  Python's [\d] also
    matches the decimal digits of the rest of Unicode; the model refuses
    every text with a character outside ASCII, so a datetime it gives is
    the one Python gives, and a refusal is Python's refusal when the text
    is ASCII ([ascii_text]). *)

Definition rx : Type := list ascii -> list (list ascii * list ascii).

Definition rx_class (f : ascii -> bool) : rx :=
  fun s =>
    match s with
    | c :: r => if f c then [([c], r)] else []
    | [] => []
    end.

Definition rx_empty : rx := fun s => [([], s)].

Definition rx_seq (p q : rx) : rx :=
  fun s =>
    flat_map (fun ar => map (fun br => (fst ar ++ fst br, snd br)) (q (snd ar))) (p s).

Definition rx_alt (p q : rx) : rx := fun s => p s ++ q s.

(** [p?], greedy *)
Definition rx_opt (p : rx) : rx := rx_alt p rx_empty.

Definition in_range (lo hi : ascii) (c : ascii) : bool :=
  (nat_of_ascii lo <=? nat_of_ascii c)%nat && (nat_of_ascii c <=? nat_of_ascii hi)%nat.

Definition rx_char (c : ascii) : rx := rx_class (Ascii.eqb c).
Definition rx_range (lo hi : ascii) : rx := rx_class (in_range lo hi).
Definition rx_d : rx := rx_class is_digit.

Declare Scope rx_scope.
Delimit Scope rx_scope with rx.
Bind Scope rx_scope with rx.
Infix "·" := rx_seq (at level 40, left associativity) : rx_scope.
Infix "|||" := rx_alt (at level 50, left associativity) : rx_scope.

(** [\d{1,n}], greedy *)
Fixpoint rx_d_upto (n : nat) : rx :=
  match n with
  | O => fun _ => []
  | S n' => (rx_d · rx_opt (rx_d_upto n'))%rx
  end.

(** [%Y]: [\d\d\d\d] *)
Definition rx_Y : rx := (rx_d · rx_d · rx_d · rx_d)%rx.

(** [%m]: [1[0-2]|0[1-9]|[1-9]] *)
Definition rx_m : rx :=
  (rx_char "1" · rx_range "0" "2" ||| rx_char "0" · rx_range "1" "9"
   ||| rx_range "1" "9")%rx.

(** [%d]: [3[0-1]|[1-2]\d|0[1-9]|[1-9]| [1-9]] *)
Definition rx_day : rx :=
  (rx_char "3" · rx_range "0" "1" ||| rx_range "1" "2" · rx_d
   ||| rx_char "0" · rx_range "1" "9" ||| rx_range "1" "9"
   ||| rx_char " " · rx_range "1" "9")%rx.

(** [%H]: [2[0-3]|[0-1]\d|\d] *)
Definition rx_H : rx :=
  (rx_char "2" · rx_range "0" "3" ||| rx_range "0" "1" · rx_d ||| rx_d)%rx.

(** [%M]: [[0-5]\d|\d] *)
Definition rx_M : rx := (rx_range "0" "5" · rx_d ||| rx_d)%rx.

(** [%S]: [6[0-1]|[0-5]\d|\d] *)
Definition rx_S : rx :=
  (rx_char "6" · rx_range "0" "1" ||| rx_range "0" "5" · rx_d ||| rx_d)%rx.

(** [%z]: [[+-]\d\d:?[0-5]\d(:?[0-5]\d(\.\d{1,6})?)?|Z] *)
Definition rx_z : rx :=
  ((rx_char "+" ||| rx_char "-") · rx_d · rx_d · rx_opt (rx_char ":")
   · rx_range "0" "5" · rx_d
   · rx_opt (rx_opt (rx_char ":") · rx_range "0" "5" · rx_d
             · rx_opt (rx_char "." · rx_d_upto 6))
   ||| rx_char "Z")%rx.

(** The format's literal characters.  The expression is compiled with
    [re.IGNORECASE], which only matters for the letter [T]. *)
Definition rx_dash : rx := rx_char "-".
Definition rx_colon : rx := rx_char ":".
Definition rx_T : rx := (rx_char "T" ||| rx_char "t")%rx.

(** The groups of a match of the whole format. *)
Record groups : Type := mkGroups {
  g_Y : list ascii;
  g_m : list ascii;
  g_d : list ascii;
  g_H : list ascii;
  g_M : list ascii;
  g_S : list ascii;
  g_z : list ascii
}.

Definition then_ {A} (p : rx) (k : list ascii -> list ascii -> list A)
  : list ascii -> list A :=
  fun s => flat_map (fun ar => k (fst ar) (snd ar)) (p s).

Definition format_regex : list ascii -> list (groups * list ascii) :=
  then_ rx_Y (fun Y => then_ rx_dash (fun _ =>
  then_ rx_m (fun m => then_ rx_dash (fun _ =>
  then_ rx_day (fun d => then_ rx_T (fun _ =>
  then_ rx_H (fun H => then_ rx_colon (fun _ =>
  then_ rx_M (fun M => then_ rx_colon (fun _ =>
  then_ rx_S (fun S => then_ rx_z (fun z rest =>
    [(mkGroups Y m d H M S z, rest)])))))))))))).

(** [z[a:b]] *)
Definition slice (a b : nat) (z : list ascii) : list ascii :=
  firstn (b - a) (skipn a z).

Definition is_char (c : ascii) (o : option ascii) : bool :=
  match o with
  | Some c' => Ascii.eqb c c'
  | None => false
  end.

(** [z] without the colons between its hours, minutes and seconds; a
    colon in the first place and none in the second is refused. *)
Definition without_colons (z : list ascii) : result (list ascii) :=
  if is_char ":" (nth_error z 3) then
    let z := firstn 3 z ++ skipn 4 z in
    if (5 <? length z)%nat then
      if negb (is_char ":" (nth_error z 5)) then Raise ValueError
      else Ok (firstn 5 z ++ skipn 6 z)
    else Ok z
  else Ok z.

(** [int(z[5:7] or 0)] *)
Definition int_or_0 (s : list ascii) : result Z :=
  match s with
  | [] => Ok 0
  | _ => int_of_chars s
  end.

(** The offset in seconds and its fraction in microseconds, from the text
    matched by [%z]. *)
Definition gmtoff_of (z : list ascii) : result (Z * Z) :=
  if list_eq_dec ascii_dec z ["Z"%char] then Ok (0, 0)
  else
    z <- without_colons z ;;
    hours <- int_of_chars (slice 1 3 z) ;;
    minutes <- int_of_chars (slice 3 5 z) ;;
    seconds <- int_or_0 (slice 5 7 z) ;;
    let gmtoff := hours * 60 * 60 + minutes * 60 + seconds in
    let remainder := skipn 8 z in
    let padding := repeat "0"%char (6 - length remainder) in
    fraction <- int_of_chars (remainder ++ padding) ;;
    if is_char "-" (nth_error z 0) then Ok (- gmtoff, - fraction)
    else Ok (gmtoff, fraction).

Definition strptime_chars (s : list ascii) : result datetime :=
  match format_regex s with
  | [] => Raise ValueError
  | (_, _ :: _) :: _ => Raise ValueError
  | (g, []) :: _ =>
      y <- int_of_chars (g_Y g) ;;
      m <- int_of_chars (g_m g) ;;
      d <- int_of_chars (g_d g) ;;
      h <- int_of_chars (g_H g) ;;
      mi <- int_of_chars (g_M g) ;;
      sec <- int_of_chars (g_S g) ;;
      off <- gmtoff_of (g_z g) ;;
      if negb (valid_date y m d) then Raise ValueError
      else
        let off := fst off * US_PER_SECOND + snd off in
        if negb (valid_offset off) then Raise ValueError
        else if negb (valid_time h mi sec) then Raise ValueError
        else Ok (mkDatetime y m d h mi sec off)
  end.

(** [datetime.strptime(x, "%Y-%m-%dT%H:%M:%S%z")]: the first argument must
    be a [str]. *)
Definition strptime (x : pyval) : result datetime :=
  match x with
  | PStr s => strptime_chars (list_ascii_of_string s)
  | _ => Raise TypeError
  end.

End Datetime.

Import Datetime.

(** ** The parser *)

(** A chain of [.get] calls: [x.get(k1).get(k2)...].  The first receiver
    that is not a dict raises [AttributeError]. *)
Fixpoint path (x : pyval) (keys : list string) : result pyval :=
  match keys with
  | [] => Ok x
  | k :: keys' =>
      v <- get x k ;;
      path v keys'
  end.
Arguments path : simpl never.

(** [__acknowledgement_decomposition], lines 20-73 *)
Definition __acknowledgement_decomposition (acknowledgement_dict : pyval)
  : result pyval :=
  let acknowledgment := [] in
  v <- path acknowledgement_dict ["Header"; "Creation"] ;;
  let acknowledgment := setitem "timestamp" v acknowledgment in
  v <- path acknowledgement_dict ["Header"; "Identification"] ;;
  let acknowledgment := setitem "identification" v acknowledgment in
  v <- path acknowledgement_dict
         ["ProcessEnergyContext"; "EnergyBusinessProcess"; "#text"] ;;
  let acknowledgment := setitem "energy_business_process" v acknowledgment in
  v <- path acknowledgement_dict ["PayloadResponseEvent"; "StatusType"; "#text"] ;;
  let acknowledgment := setitem "status_type" v acknowledgment in
  v <- path acknowledgement_dict
         ["PayloadResponseEvent"; "ResponseReasonType"; "#text"] ;;
  let acknowledgment := setitem "response_reason_type" v acknowledgment in
  v <- path acknowledgement_dict
         ["PayloadResponseEvent"; "OriginalBusinessDocumentReference"] ;;
  let acknowledgment :=
    setitem "original_business_document_reference" v acknowledgment in
  Ok (PDict acknowledgment).

(** The fields [__metering_decomposition] fills in before it looks at the
    observations, lines 84-109. *)
Definition metering_fields (metering_dict : pyval)
  : result (list (string * pyval)) :=
  let metering := [] in
  v <- path metering_dict
         ["PayloadEnergyTimeSeries"; "MeteringPointUsedDomainLocation";
          "Identification"; "#text"] ;;
  let metering := setitem "metering_point" v metering in
  v <- path metering_dict ["Header"; "Creation"] ;;
  let metering := setitem "timestamp" v metering in
  v <- path metering_dict ["Header"; "Identification"] ;;
  let metering := setitem "identification" v metering in
  v <- path metering_dict
         ["ProcessEnergyContext"; "EnergyBusinessProcess"; "#text"] ;;
  let metering := setitem "energy_business_process" v metering in
  v <- path metering_dict
         ["PayloadEnergyTimeSeries"; "ObservationPeriodTimeSeriesPeriod"; "Start"] ;;
  let metering := setitem "start_time" v metering in
  v <- path metering_dict
         ["PayloadEnergyTimeSeries"; "ObservationPeriodTimeSeriesPeriod"; "End"] ;;
  let metering := setitem "end_time" v metering in
  v <- path metering_dict
         ["PayloadEnergyTimeSeries"; "ObservationPeriodTimeSeriesPeriod";
          "ResolutionDuration"] ;;
  let metering := setitem "resolution" v metering in
  v <- path metering_dict
         ["PayloadEnergyTimeSeries"; "ProductIncludedProductCharacteristics";
          "UnitType"] ;;
  let metering := setitem "unit" v metering in
  Ok metering.

(** [(start_time + timedelta(hours=int(e.get("@Sequence")))).isoformat()] *)
Definition observation_timestamp (start_time : datetime) (e : pyval)
  : result pyval :=
  s <- get e "@Sequence" ;;
  k <- int s ;;
  delta <- timedelta_hours k ;;
  t <- add start_time delta ;;
  Ok (PStr (isoformat t)).

(** The element expression of the comprehension of lines 118-129: the
    condition is evaluated first, then the items of the chosen dict
    display from left to right. *)
Definition observation_entry (start_time : datetime) (e : pyval) : result pyval :=
  metered <- get e "Metered" ;;
  if truthy metered then
    t <- observation_timestamp start_time e ;;
    v <- get e "Metered" ;;
    Ok (PDict [("timestamp", t); ("value", v)])
  else
    t <- observation_timestamp start_time e ;;
    vs <- values e ;;
    child <- index vs 1 ;;
    v <- get child "#text" ;;
    Ok (PDict [("timestamp", t); ("value", v)]).

(** [__metering_decomposition], lines 75-140.  The Python function
    returns a dict or [None]; [None] is [PNone]. *)
Definition __metering_decomposition (metering_dict : pyval) : result pyval :=
  metering <- metering_fields metering_dict ;;
  c <- path metering_dict ["PayloadEnergyTimeSeries"; "Observation"] ;;
  if truthy c then
    observations <- path metering_dict ["PayloadEnergyTimeSeries"; "Observation"] ;;
    s <- get (PDict metering) "start_time" ;;
    start_time <- strptime s ;;
    es <- iter observations ;;
    l <- comprehension (observation_entry start_time) es ;;
    Ok (PDict (setitem "observations" (PList l) metering))
  else
    c <- path metering_dict ["PayloadEnergyTimeSeries"; "ProfiledObservation"] ;;
    if truthy c then
      s <- get (PDict metering) "start_time" ;;
      start_time <- strptime s ;;
      observations <-
        path metering_dict ["PayloadEnergyTimeSeries"; "ProfiledObservation"] ;;
      let t := PStr (isoformat start_time) in
      v <- path observations ["Metered"; "#text"] ;;
      Ok (PDict (setitem "observations"
                   (PDict [("timestamp", t); ("value", v)]) metering))
    else Ok PNone.

Definition NO_DATA : pyerr := PyException "No Data found in the response".

(** What [result_data_set.get(key, [])] becomes after the
    [isinstance(..., dict)] wrapping of lines 170-180. *)
Definition collection (result_data_set : pyval) (key : string) : result pyval :=
  c <- get_default result_data_set key (PList []) ;;
  Ok (if isinstance_dict c then PList [c] else c).

(** [parse_metering_poll_response] from line 157 on.  [xmltodict.parse] is
    an external library; its result [json_response] is the input here. *)
Definition parse_metering_poll_response (json_response : pyval) : result pyval :=
  p <- path json_response ["Envelope"; "Body"; "PollForDataResponse"] ;;
  result_data_set <- get_default p "ResultDataSet" PNone ;;
  if negb (truthy result_data_set) then Raise NO_DATA
  else
    acknowledgment <- collection result_data_set "Acknowledgement" ;;
    metering <- collection result_data_set "NotifyValidatedDataForBillingEnergy" ;;
    ms <- iter metering ;;
    metering_list <- comprehension __metering_decomposition ms ;;
    acks <- iter acknowledgment ;;
    acknowledgment_list <- comprehension __acknowledgement_decomposition acks ;;
    Ok (PDict [("meterings", PList metering_list);
               ("acknowledgements", PList acknowledgment_list)]).

(** The keys of a path are all there: every receiver is a dict that holds
    the next key. *)
Fixpoint present (x : pyval) (keys : list string) : bool :=
  match keys with
  | [] => true
  | k :: keys' =>
      match x with
      | PDict items =>
          match lookup k items with
          | Some v => present v keys'
          | None => false
          end
      | _ => false
      end
  end.

(** ** Vocabulary of the specification *)


(** A response whose envelope leads to a non-empty [ResultDataSet] whose
    two collections are, after the wrapping of lines 170-180, the
    sequences [ms] and [acks]. *)
Definition response_collections (json_response : pyval) (ms acks : list pyval)
  : Prop :=
  exists p result_data_set,
    path json_response ["Envelope"; "Body"; "PollForDataResponse"] = Ok p
    /\ get_default p "ResultDataSet" PNone = Ok result_data_set
    /\ truthy result_data_set = true
    /\ collection result_data_set "NotifyValidatedDataForBillingEnergy"
       = Ok (PList ms)
    /\ collection result_data_set "Acknowledgement" = Ok (PList acks).

(** The result mapping of the parser. *)
Definition parse_result (meterings acknowledgements : list pyval) : pyval :=
  PDict [("meterings", PList meterings);
         ("acknowledgements", PList acknowledgements)].

(** A metering record whose fixed fields can all be read and whose
    payload has neither an [Observation] nor a [ProfiledObservation]
    (the key is absent, or the element is empty). *)
Definition neither_shape (metering_dict : pyval) : Prop :=
  (exists fields, metering_fields metering_dict = Ok fields)
  /\ (exists o, path metering_dict ["PayloadEnergyTimeSeries"; "Observation"] = Ok o
                /\ truthy o = false)
  /\ (exists o, path metering_dict ["PayloadEnergyTimeSeries"; "ProfiledObservation"]
                = Ok o
                /\ truthy o = false).

(** ** Vocabulary of the calendar facts *)

(** The month and day of day [n] (from 0) of a year, as the second half
    of [ord2ymd] finds them. *)
Definition month_day (leapyear : bool) (n : Z) : Z * Z :=
  let m := Z.shiftr (n + 50) 5 in
    let preceding :=
      table DAYS_BEFORE_MONTH m + (if (2 <? m) && leapyear then 1 else 0) in
    if n <? preceding then
      let m' := m - 1 in
      let preceding' :=
        preceding
        - (table DAYS_IN_MONTH m' + (if (m' =? 2) && leapyear then 1 else 0)) in
      (m', n - preceding' + 1)
    else (m, n - preceding + 1).

(** What [month_day] has to get right: a month, a day of that month, and
    as many days before it as [n] says. *)
Definition month_day_ok (leapyear : bool) (n : Z) : bool :=
  let '(m, d) := month_day leapyear n in
  (1 <=? m) && (m <=? 12) && (1 <=? d)
  && (d <=? (if (m =? 2) && leapyear then 29 else table DAYS_IN_MONTH m))
  && (table DAYS_BEFORE_MONTH m + (if (2 <? m) && leapyear then 1 else 0) + d =? n + 1).

(** The seconds on the local clock since the start of day 0 of the
    proleptic Gregorian calendar. *)
Definition wall_seconds (dt : datetime) : Z :=
  toordinal dt * 86400 + hour dt * 3600 + minute dt * 60 + second dt.

(** ** Vocabulary of the observation claims *)

(** [d.get(k)] for the items of a dict [d]. *)
Definition entry (items : list (string * pyval)) (k : string) : pyval :=
  match lookup k items with
  | Some v => v
  | None => PNone
  end.

(** What [list(e.values())[1].get("#text")] of line 126 gives when it does
    not raise: the [#text] of the second entry of the item, which has to
    be a mapping. *)
Definition second_entry_text (items : list (string * pyval)) : option pyval :=
  match items with
  | _ :: (_, PDict child) :: _ =>
      Some (match lookup "#text" child with
            | Some t => t
            | None => PNone
            end)
  | _ => None
  end.

(** [int(e.get("@Sequence"))] *)
Definition sequence_index (e : pyval) : result Z :=
  s <- get e "@Sequence" ;;
  int s.

(** The counts of seconds that are the local clock of a datetime of the
    years 1 to 9999. *)
Definition representable (t : Z) : Prop :=
  86400 <= t < 86400 * (MAXORDINAL + 1).

(** An entry of the output observation sequence. *)
Definition observation (timestamp value : pyval) : pyval :=
  PDict [("timestamp", timestamp); ("value", value)].

(** The entries for a sequence of timestamps and a sequence of values. *)
Definition observations_of (ts vs : list pyval) : list pyval :=
  map (fun tv => observation (fst tv) (snd tv)) (combine ts vs).

(** A metering record with the observations added to its fixed fields. *)
Definition with_observations (fields : list (string * pyval)) (obs : pyval)
  : pyval :=
  PDict (fields ++ [("observations", obs)]).

(** The datetimes [dts] are [dt] moved by [ks] hours, one by one: the
    local clock is [3600 * k] seconds further and the offset is kept. *)
Definition hours_after (dt : datetime) (ks : list Z) (dts : list datetime) : Prop :=
  Forall2 (fun k dt' => valid dt' = true
                        /\ wall_seconds dt' = wall_seconds dt + 3600 * k
                        /\ utcoffset dt' = utcoffset dt) ks dts.

(** [str(k)]: an integer in decimal, as a sequence attribute holds it.
    [digits_of] writes at most [fuel] digits. *)
Fixpoint digits_of (fuel : nat) (n : Z) : list ascii :=
  match fuel with
  | O => []
  | S fuel' =>
      (if n <? 10 then [] else digits_of fuel' (n / 10)) ++ [digit (n mod 10)]
  end.

Definition decimal (k : Z) : string :=
  string_of_list_ascii
    ((if k <? 0 then ["-"%char] else [])
     ++ digits_of (S (Z.to_nat (Z.log2 (Z.abs k)))) (Z.abs k)).

(** *** The value of an item in the words of the specification

    [xmltodict] gives an element as a mapping from the names of its
    attributes, with [@] before them, and of its child elements to their
    values, with the text of the element itself under [#text]; an element
    that has neither attributes nor children is the text alone, or [None]
    when it is empty, and a child tag that occurs more than once holds the
    sequence of its elements. *)

Definition is_attribute (k : string) : bool :=
  match k with
  | String "@"%char _ => true
  | _ => false
  end.

Definition is_child_element (k : string) : bool :=
  negb (is_attribute k) && negb (String.eqb k "#text").

Definition element_text (x : pyval) : pyval :=
  match x with
  | PStr s => PStr s
  | PDict items => entry items "#text"
  | _ => PNone
  end.

(** The inner text of the first element under a child tag. *)
Definition inner_text (x : pyval) : pyval :=
  match x with
  | PList (x0 :: _) => element_text x0
  | _ => element_text x
  end.

(** The direct [Metered] field when the item carries one, and else the
    inner text of the first child element: the first entry that is not an
    attribute, the identifying sequence attribute among them. *)
Definition observation_value_words (items : list (string * pyval))
  : option pyval :=
  match lookup "Metered" items with
  | Some metered => Some metered
  | None =>
      match filter (fun kv => is_child_element (fst kv)) items with
      | (_, child) :: _ => Some (inner_text child)
      | [] => None
      end
  end.

(** The items on which lines 121 and 126 find the value these words
    name: an item with a [Metered] field that holds something, or an item
    without a [Metered] field whose first entry is no child element (it
    is the sequence attribute) and whose second entry is a child element
    with attributes of its own, which makes it a mapping. *)
Definition regular_item (items : list (string * pyval)) : Prop :=
  (exists m, lookup "Metered" items = Some m /\ truthy m = true)
  \/ (lookup "Metered" items = None
      /\ exists k0 v0 k1 child rest,
          items = (k0, v0) :: (k1, PDict child) :: rest
          /\ is_child_element k0 = false
          /\ is_child_element k1 = true).

(** ** Vocabulary of the acknowledgement claim *)

(** The mapping a chain of keys leads to: every key of the chain is there
    and the last one holds a mapping. *)
Fixpoint mapping_at (x : pyval) (keys : list string)
  : option (list (string * pyval)) :=
  match x with
  | PDict items =>
      match keys with
      | [] => Some items
      | k :: keys' =>
          match lookup k items with
          | Some v => mapping_at v keys'
          | None => None
          end
      end
  | _ => None
  end.

(** The nodes of an acknowledgement in which lines 60-71 look up the six
    fields. *)
Definition ACK_NODES : list (list string) :=
  [["Header"];
   ["ProcessEnergyContext"; "EnergyBusinessProcess"];
   ["PayloadResponseEvent"];
   ["PayloadResponseEvent"; "StatusType"];
   ["PayloadResponseEvent"; "ResponseReasonType"]].

(** ** Vocabulary of the round trip through [isoformat] *)

(** The matches of a field followed by a literal of the format: the text
    of the field and what is left after the literal. *)
Definition field_then (p q : rx) : rx :=
  fun s => flat_map (fun ar => map (fun br => (fst ar, snd br)) (q (snd ar))) (p s).

(** The text of an offset of whole minutes. *)
Definition offset_text (negative : bool) (hh mm : Z) : list ascii :=
  (if negative then "-"%char else "+"%char)
  :: zero_padded 2 hh ++ ":"%char :: zero_padded 2 mm.

(** What reading an offset text back has to give. *)
Definition offset_text_ok (negative : bool) (hh mm : Z) : bool :=
  let t := offset_text negative hh mm in
  match rx_z t, gmtoff_of t with
  | [(z, [])], Ok (g, f) =>
      (if list_eq_dec ascii_dec z t then true else false)
      && (g =? (if negative then -1 else 1) * (hh * 3600 + mm * 60)) && (f =? 0)
  | _, _ => false
  end.

(** [int] reads a zero-padded number back. *)
Definition int_padded_ok (w : nat) (v : Z) : bool :=
  match int_of_chars (zero_padded w v) with
  | Ok n => n =? v
  | Raise _ => false
  end.

(** The text of an offset of whole minutes without the colon, [+HHMM],
    which is how the specification writes the format of the start time. *)
Definition offset_text_hhmm (negative : bool) (hh mm : Z) : list ascii :=
  (if negative then "-"%char else "+"%char)
  :: zero_padded 2 hh ++ zero_padded 2 mm.

Definition offset_text_hhmm_ok (negative : bool) (hh mm : Z) : bool :=
  let t := offset_text_hhmm negative hh mm in
  match rx_z t, gmtoff_of t with
  | [(z, [])], Ok (g, f) =>
      (if list_eq_dec ascii_dec z t then true else false)
      && (g =? (if negative then -1 else 1) * (hh * 3600 + mm * 60)) && (f =? 0)
  | _, _ => false
  end.

(** The date and the time of day of an ISO form, up to the offset. *)
Definition local_chars (dt : datetime) : list ascii :=
  zero_padded 4 (year dt) ++ ["-"%char] ++ zero_padded 2 (month dt)
  ++ ["-"%char] ++ zero_padded 2 (day dt) ++ ["T"%char]
  ++ zero_padded 2 (hour dt) ++ [":"%char] ++ zero_padded 2 (minute dt)
  ++ [":"%char] ++ zero_padded 2 (second dt).

(** [YYYY-MM-DDTHH:MM:SS+HHMM] for a datetime with an offset of whole
    minutes. *)
Definition isoformat_hhmm (dt : datetime) : string :=
  string_of_list_ascii
    (local_chars dt
     ++ offset_text_hhmm (utcoffset dt <? 0) (Z.abs (utcoffset dt) / US_PER_HOUR)
          (Z.abs (utcoffset dt) mod US_PER_HOUR / US_PER_MINUTE)).

(** ** Sample responses

    Trees of the shape [xmltodict.parse] gives for a poll response: the
    attributes of an element come first, with an [@] before their names,
    and the text of an element that has attributes is under [#text]. *)

Definition coded (agency text : string) : pyval :=
  PDict [("@listAgencyIdentifier", PStr agency); ("#text", PStr text)].

Definition sample_header (identification : string) : pyval :=
  PDict [("Identification", PStr identification);
         ("DocumentType", coded "6" "E66");
         ("Creation", PStr "2023-01-02T06:15:00Z")].

Definition sample_context : pyval :=
  PDict [("EnergyBusinessProcess", coded "89" "BRS-NO-312");
         ("EnergyBusinessProcessRole", coded "6" "DDQ")].

(** A metering record for the period that starts at [start], with
    [readings] as the items of its payload that hold the readings. *)
Definition sample_metering (start : string) (readings : list (string * pyval))
  : pyval :=
  PDict [("Header", sample_header "b5a1f0d2");
         ("ProcessEnergyContext", sample_context);
         ("PayloadEnergyTimeSeries",
          PDict ([("Identification", PStr "ts-1");
                  ("ObservationPeriodTimeSeriesPeriod",
                   PDict [("ResolutionDuration", PStr "PT1H");
                          ("Start", PStr start);
                          ("End", PStr "2023-01-02T00:00:00+01:00")]);
                  ("ProductIncludedProductCharacteristics",
                   PDict [("Identification", coded "9" "8716867000030");
                          ("UnitType", coded "6" "KWH")]);
                  ("MeteringPointUsedDomainLocation",
                   PDict [("Identification",
                           PDict [("@schemeAgencyIdentifier", PStr "9");
                                  ("#text", PStr "707057500012345678")])])]
                 ++ readings))].

Definition sample_fields (start : string) : list (string * pyval) :=
  [("metering_point", PStr "707057500012345678");
   ("timestamp", PStr "2023-01-02T06:15:00Z");
   ("identification", PStr "b5a1f0d2");
   ("energy_business_process", PStr "BRS-NO-312");
   ("start_time", PStr start);
   ("end_time", PStr "2023-01-02T00:00:00+01:00");
   ("resolution", PStr "PT1H");
   ("unit", coded "6" "KWH")].

(** An item with a direct [Metered] value, and one whose value is under a
    tag named after its quality. *)
Definition metered_item (sequence value : string) : pyval :=
  PDict [("@Sequence", PStr sequence); ("Metered", PStr value)].

Definition estimated_item (sequence value : string) : pyval :=
  PDict [("@Sequence", PStr sequence);
         ("Estimated", PDict [("@quality", PStr "56"); ("#text", PStr value)])].

Definition sample_items : list pyval :=
  [metered_item "0" "1.250"; estimated_item "1" "0.980"; metered_item "2" "1.100"].

Definition sample_series : pyval :=
  sample_metering "2023-01-01T00:00:00+01:00" [("Observation", PList sample_items)].

(** The only item of a series as [xmltodict] gives it: the mapping itself,
    not a sequence. *)
Definition sample_single_item : pyval :=
  sample_metering "2023-01-01T00:00:00+01:00"
    [("Observation", metered_item "0" "1.250")].

Definition sample_profiled (start : string) : pyval :=
  sample_metering start
    [("ProfiledObservation",
      PDict [("Metered", PDict [("@quality", PStr "127"); ("#text", PStr "24.5")])])].

Definition sample_shapeless : pyval :=
  sample_metering "2023-01-01T00:00:00+01:00" [].

Definition sample_acknowledgement : pyval :=
  PDict [("Header", sample_header "0c7d3e91");
         ("ProcessEnergyContext", sample_context);
         ("PayloadResponseEvent",
          PDict [("StatusType", coded "6" "39");
                 ("ResponseReasonType", coded "260" "A01");
                 ("OriginalBusinessDocumentReference", PStr "b5a1f0d2")])].

Definition sample_response (result_data_set : pyval) : pyval :=
  PDict [("Envelope",
          PDict [("Body",
                  PDict [("PollForDataResponse",
                          PDict [("ResultDataSet", result_data_set)])])])].

Definition sample_poll : pyval :=
  sample_response
    (PDict [("Acknowledgement", sample_acknowledgement);
            ("NotifyValidatedDataForBillingEnergy",
             PList [sample_series; sample_shapeless])]).

Definition sample_start : datetime := mkDatetime 2023 1 1 0 0 0 3600000000.

Definition sample_timestamps : list pyval :=
  [PStr "2023-01-01T00:00:00+01:00";
   PStr "2023-01-01T01:00:00+01:00";
   PStr "2023-01-01T02:00:00+01:00"].

Definition sample_values : list pyval :=
  [PStr "1.250"; PStr "0.980"; PStr "1.100"].

(** A series that starts late on the day before a leap day, with the
    offset of its start time written without the colon. *)
Definition sample_leap_items : list pyval :=
  [metered_item "0" "1.250"; estimated_item "2" "0.980"; metered_item "26" "1.100"].

Definition sample_leap_series : pyval :=
  sample_metering "2024-02-28T22:15:30-0330"
    [("Observation", PList sample_leap_items)].

Definition sample_leap_start : datetime :=
  mkDatetime 2024 2 28 22 15 30 (-12600000000).

Definition sample_leap_timestamps : list pyval :=
  [PStr "2024-02-28T22:15:30-03:30";
   PStr "2024-02-29T00:15:30-03:30";
   PStr "2024-03-01T00:15:30-03:30"].

(** An item whose reading is a child element without attributes, and one
    with a second attribute before its child element. *)
Definition sample_bare_text_item : pyval :=
  PDict [("@Sequence", PStr "1"); ("Estimated", PStr "0.980")].

Definition sample_two_attribute_item : pyval :=
  PDict [("@Sequence", PStr "1"); ("@Quality", PStr "56");
         ("Estimated", PDict [("@unit", PStr "KWH"); ("#text", PStr "0.980")])].

Definition sample_bare_text_series : pyval :=
  sample_metering "2023-01-01T00:00:00+01:00"
    [("Observation", PList [metered_item "0" "1.250"; sample_bare_text_item])].

(** A response whose [PollForDataResponse] is an empty element. *)
Definition sample_empty_poll_element : pyval :=
  PDict [("Envelope",
          PDict [("Body", PDict [("PollForDataResponse", PNone)])])].



(** An acknowledgement that has the five nodes and none of the six
    leaves. *)
Definition sample_acknowledgement_bare : pyval :=
  PDict [("Header", PDict [("DocumentType", coded "6" "E66")]);
         ("ProcessEnergyContext",
          PDict [("EnergyBusinessProcess",
                  PDict [("@listAgencyIdentifier", PStr "89")])]);
         ("PayloadResponseEvent",
          PDict [("StatusType", PDict [("@listAgencyIdentifier", PStr "6")]);
                 ("ResponseReasonType",
                  PDict [("@listAgencyIdentifier", PStr "260")])])].

(** ** Vocabulary of the further properties *)

(** The exceptions of the Python runtime that a decomposer can let
    through. *)
Definition runtime_error (e : pyerr) : Prop :=
  e = AttributeError \/ e = TypeError \/ e = ValueError
  \/ e = IndexError \/ e = OverflowError.

(** The eight fixed fields of a metering record, each with the chain of
    [.get] calls that reads it, in the order of lines 85-109. *)
Definition METERING_PATHS : list (string * list string) :=
  [("metering_point",
    ["PayloadEnergyTimeSeries"; "MeteringPointUsedDomainLocation";
     "Identification"; "#text"]);
   ("timestamp", ["Header"; "Creation"]);
   ("identification", ["Header"; "Identification"]);
   ("energy_business_process",
    ["ProcessEnergyContext"; "EnergyBusinessProcess"; "#text"]);
   ("start_time",
    ["PayloadEnergyTimeSeries"; "ObservationPeriodTimeSeriesPeriod"; "Start"]);
   ("end_time",
    ["PayloadEnergyTimeSeries"; "ObservationPeriodTimeSeriesPeriod"; "End"]);
   ("resolution",
    ["PayloadEnergyTimeSeries"; "ObservationPeriodTimeSeriesPeriod";
     "ResolutionDuration"]);
   ("unit",
    ["PayloadEnergyTimeSeries"; "ProductIncludedProductCharacteristics";
     "UnitType"])].

(** [fields] holds, key by key and in order, what the chains of [paths]
    read in [x]. *)
Definition reads (x : pyval) (paths : list (string * list string))
  (fields : list (string * pyval)) : Prop :=
  Forall2 (fun kp kv => fst kv = fst kp /\ path x (snd kp) = Ok (snd kv))
    paths fields.

(** The value line 121 or line 126 gives for an item with the items
    [items]: the [Metered] field when it holds something, and else the
    [#text] of the second item, which has to be a mapping. *)
Definition item_value (items : list (string * pyval)) : option pyval :=
  match lookup "Metered" items with
  | Some metered => if truthy metered then Some metered else second_entry_text items
  | None => second_entry_text items
  end.

(** An entry of an observation sequence whose timestamp is a text. *)
Definition is_observation (x : pyval) : Prop :=
  exists t v, x = observation (PStr t) v.

(** A metering record of the output: the eight fixed fields under their
    keys, then [observations], which is one entry or a sequence of
    entries that is not empty. *)
Definition is_metering_record (x : pyval) : Prop :=
  exists fields obs,
    x = with_observations fields obs
    /\ map fst fields = map fst METERING_PATHS
    /\ (is_observation obs
        \/ exists l, obs = PList l /\ l <> [] /\ Forall is_observation l).

Definition ACK_KEYS : list string :=
  ["timestamp"; "identification"; "energy_business_process"; "status_type";
   "response_reason_type"; "original_business_document_reference"].

(** An acknowledgement record of the output: a mapping with the six keys,
    in this order. *)
Definition is_acknowledgement_record (x : pyval) : Prop :=
  exists items, x = PDict items /\ map fst items = ACK_KEYS.

(** A metering record with a reading to decompose: an [Observation], or
    else a [ProfiledObservation]. *)
Definition has_shape (metering_dict : pyval) : Prop :=
  exists o,
    path metering_dict ["PayloadEnergyTimeSeries"; "Observation"] = Ok o
    /\ (truthy o = true
        \/ exists p,
            path metering_dict ["PayloadEnergyTimeSeries"; "ProfiledObservation"]
            = Ok p
            /\ truthy p = true).

(** The children of a metering record that every one of its fixed fields
    is read through. *)
Definition REQUIRED_CHILDREN : list string :=
  ["PayloadEnergyTimeSeries"; "Header"; "ProcessEnergyContext"].

(** A response whose second metering record cannot be decomposed. *)
Definition sample_poll_failing : pyval :=
  sample_response
    (PDict [("Acknowledgement", sample_acknowledgement);
            ("NotifyValidatedDataForBillingEnergy",
             PList [sample_series; sample_single_item])]).


(** A record without [Header]. *)
Definition sample_headless : pyval :=
  PDict [("ProcessEnergyContext", sample_context);
         ("PayloadEnergyTimeSeries", PDict [("Identification", PStr "ts-1")])].

(** An acknowledgement whose [Header] has no [Creation]. *)
Definition sample_acknowledgement_undated : pyval :=
  PDict [("Header", PDict [("Identification", PStr "0c7d3e91")]);
         ("ProcessEnergyContext", sample_context);
         ("PayloadResponseEvent",
          PDict [("StatusType", coded "6" "39");
                 ("ResponseReasonType", coded "260" "A01");
                 ("OriginalBusinessDocumentReference", PStr "b5a1f0d2")])].

(** * Verification *)
(** ** The runtime model *)

Lemma bind_Ok {A B} (r : result A) (k : A -> result B) (b : B) :
  bind r k = Ok b -> exists a, r = Ok a /\ k a = Ok b.
Proof. destruct r as [a|e]; simpl; [eauto | discriminate]. Qed.

Lemma comprehension_Ok {A B} (f : A -> result B) xs ys :
  comprehension f xs = Ok ys <-> Forall2 (fun x y => f x = Ok y) xs ys.
Proof.
  revert ys; induction xs as [|x xs IH]; intros ys; simpl.
  - split; intros H.
    + injection H as <-. constructor.
    + inversion H. reflexivity.
  - split; intros H.
    + apply bind_Ok in H as (y & Hy & H).
      apply bind_Ok in H as (ys' & Hys & H).
      injection H as <-. constructor; [assumption | now apply IH].
    + inversion H as [|? y ? ys' Hy Hys]; subst.
      rewrite Hy; simpl. apply IH in Hys. rewrite Hys. reflexivity.
Qed.

Lemma comprehension_length {A B} (f : A -> result B) xs ys :
  comprehension f xs = Ok ys -> length ys = length xs.
Proof.
  intros H. apply comprehension_Ok in H.
  induction H; simpl; congruence.
Qed.

Lemma comprehension_nth {A B} (f : A -> result B) xs ys i x :
  comprehension f xs = Ok ys -> nth_error xs i = Some x ->
  exists y, nth_error ys i = Some y /\ f x = Ok y.
Proof.
  intros H. apply comprehension_Ok in H. revert i.
  induction H as [|x0 y0 xs ys Hxy _ IH]; intros [|i] Hi; simpl in *;
    try discriminate.
  - injection Hi as <-. eauto.
  - now apply IH.
Qed.

(** The first element on which [f] raises decides the exception. *)
Lemma comprehension_Raise {A B} (f : A -> result B) pre x post ys e :
  comprehension f pre = Ok ys -> f x = Raise e ->
  comprehension f (pre ++ x :: post) = Raise e.
Proof.
  revert ys; induction pre as [|p pre IH]; intros ys Hpre Hx; simpl.
  - rewrite Hx. reflexivity.
  - simpl in Hpre. apply bind_Ok in Hpre as (y & Hy & Hpre).
    apply bind_Ok in Hpre as (ys' & Hys & _).
    rewrite Hy; simpl. rewrite (IH ys' Hys Hx). reflexivity.
Qed.

(** A [.get] on anything but a dict raises [AttributeError], and nothing
    else can go wrong in a chain of them. *)
Lemma get_default_Raise x k d e : get_default x k d = Raise e -> e = AttributeError.
Proof.
  destruct x; simpl; try congruence.
  destruct (lookup k items); discriminate.
Qed.

Lemma path_nil x : path x [] = Ok x.
Proof. reflexivity. Qed.

Lemma path_cons x k keys : path x (k :: keys) = (v <- get x k ;; path v keys).
Proof. reflexivity. Qed.

Lemma path_Raise keys : forall x e, path x keys = Raise e -> e = AttributeError.
Proof.
  induction keys as [|k keys IH]; intros x e.
  - discriminate.
  - rewrite path_cons. destruct (get x k) as [v|e'] eqn:Hg; simpl.
    + apply IH.
    + intros [= <-]. eapply get_default_Raise, Hg.
Qed.

(** ** Case analysis on a chain of lookups *)

Ltac path_cases :=
  match goal with
  | |- context [bind (path ?a ?p) _] =>
      let H := fresh "Hp" in
      let e := fresh "e" in
      destruct (path a p) as [?v|e] eqn:H; simpl;
      [ | pose proof (path_Raise _ _ _ H); subst e ]
  end.

(** ** The envelope navigator *)

Lemma present_false keys : forall x,
  present x keys = false ->
  path x keys = Raise AttributeError \/ path x keys = Ok PNone.
Proof.
  induction keys as [|k keys IH]; intros x H; simpl in H.
  - discriminate.
  - rewrite path_cons.
    destruct x as [|s|items|l]; try (left; reflexivity).
    simpl. destruct (lookup k items) as [v|] eqn:Hl; simpl.
    + apply IH, H.
    + destruct keys as [|k' keys']; [right | left]; reflexivity.
Qed.

Lemma present_true keys : forall x,
  present x keys = true -> exists v, path x keys = Ok v.
Proof.
  induction keys as [|k keys IH]; intros x H; simpl in H.
  - exists x. reflexivity.
  - rewrite path_cons. destruct x as [|s|items|l]; try discriminate.
    simpl. destruct (lookup k items) as [v|]; [ | discriminate].
    simpl. apply IH, H.
Qed.

(** On a response with collections [ms] and [acks] the parser is the two
    comprehensions, the meterings first. *)
Lemma parse_on_collections json ms acks :
  response_collections json ms acks ->
  parse_metering_poll_response json
  = (metering_list <- comprehension __metering_decomposition ms ;;
     acknowledgment_list <- comprehension __acknowledgement_decomposition acks ;;
     Ok (parse_result metering_list acknowledgment_list)).
Proof.
  intros (p & rds & Hp & Hr & Ht & Hm & Ha).
  unfold parse_metering_poll_response.
  rewrite Hp; simpl. rewrite Hr; simpl. rewrite Ht; simpl.
  rewrite Ha; simpl. rewrite Hm; simpl. reflexivity.
Qed.


(** C4. When a node of the path [Envelope.Body.PollForDataResponse] is
    missing, the parse raises [AttributeError]: the exception of the
    failed lookup leaves the parser as it is.  It is not the exception
    raised for a missing or empty [ResultDataSet]. *)
Theorem malformed_structure_error
  (json : pyval)
  (Hmissing : present json ["Envelope"; "Body"; "PollForDataResponse"] = false) :
  parse_metering_poll_response json = Raise AttributeError
  /\ AttributeError <> NO_DATA.
Proof.
  split; [ | discriminate].
  unfold parse_metering_poll_response.
  destruct (present_false _ _ Hmissing) as [-> | ->]; reflexivity.
Qed.

(** ** The metering decomposer *)

Lemma metering_fields_Ok md fields :
  metering_fields md = Ok fields ->
  exists mp ts ident ebp st et res unit,
    fields = [("metering_point", mp); ("timestamp", ts); ("identification", ident);
              ("energy_business_process", ebp); ("start_time", st);
              ("end_time", et); ("resolution", res); ("unit", unit)]
    /\ path md ["PayloadEnergyTimeSeries"; "ObservationPeriodTimeSeriesPeriod"; "Start"]
       = Ok st.
Proof.
  unfold metering_fields.
  repeat (path_cases; [ | discriminate]).
  intros [= <-]. repeat eexists.
Qed.

Lemma metering_fields_Raise md e :
  metering_fields md = Raise e -> e = AttributeError.
Proof.
  unfold metering_fields.
  repeat (path_cases; [ | congruence]).
  discriminate.
Qed.

Lemma neither_shape_None md : neither_shape md -> __metering_decomposition md = Ok PNone.
Proof.
  intros ((fields & Hf) & (o & Ho & Hto) & (o' & Ho' & Hto')).
  unfold __metering_decomposition.
  rewrite Hf; simpl. rewrite Ho; simpl. rewrite Hto.
  rewrite Ho'; simpl. rewrite Hto'. reflexivity.
Qed.

Lemma comprehension_total {A B} (f : A -> result B) xs :
  Forall (fun x => exists y, f x = Ok y) xs -> exists ys, comprehension f xs = Ok ys.
Proof.
  induction 1 as [|x xs (y & Hy) _ (ys & Hys)]; simpl.
  - eauto.
  - rewrite Hy; simpl. rewrite Hys; simpl. eauto.
Qed.

Lemma comprehension_fails {A B} (f : A -> result B) xs x e :
  In x xs -> f x = Raise e -> exists e', comprehension f xs = Raise e'.
Proof.
  induction xs as [|x0 xs IH]; intros Hin Hx; simpl in *.
  - contradiction.
  - destruct (f x0) as [y|e0] eqn:H0; simpl; [ | eauto].
    destruct Hin as [-> | Hin]; [congruence | ].
    destruct (IH Hin Hx) as (e' & ->). simpl. eauto.
Qed.

(** C7. A metering record whose fixed fields can be read and which has
    neither an [Observation] nor a [ProfiledObservation] is decomposed
    without an exception, to [None].  In a response all of whose other
    records can be decomposed, the parse returns, the [meterings] sequence
    is as long as the sequence of source records, and it holds [None] at
    the position of every such record. *)
Theorem neither_shape_keeps_placeholder
  (json : pyval) (ms acks : list pyval)
  (Hresp : response_collections json ms acks)
  (Hms : Forall (fun m => neither_shape m
                          \/ exists o, __metering_decomposition m = Ok o) ms)
  (Hacks : Forall (fun a => exists o, __acknowledgement_decomposition a = Ok o) acks) :
  (forall m, neither_shape m -> __metering_decomposition m = Ok PNone)
  /\ exists outs aouts,
      parse_metering_poll_response json = Ok (parse_result outs aouts)
      /\ length outs = length ms
      /\ forall i m, nth_error ms i = Some m -> neither_shape m ->
                     nth_error outs i = Some PNone.
Proof.
  split; [exact neither_shape_None | ].
  assert (Hms' : Forall (fun m => exists o, __metering_decomposition m = Ok o) ms).
  { eapply Forall_impl; [ | exact Hms].
    intros m [Hn | Ho]; [eauto using neither_shape_None | exact Ho]. }
  destruct (comprehension_total _ _ Hms') as (outs & Houts).
  destruct (comprehension_total _ _ Hacks) as (aouts & Haouts).
  exists outs, aouts.
  rewrite (parse_on_collections _ _ _ Hresp), Houts; simpl. rewrite Haouts; simpl.
  repeat split.
  - eapply comprehension_length, Houts.
  - intros i m Hi Hn.
    destruct (comprehension_nth _ _ _ _ _ Houts Hi) as (y & Hy & Hm).
    rewrite (neither_shape_None _ Hn) in Hm. congruence.
Qed.

(** C8. On a well-formed response the parse returns exactly when every
    record can be decomposed, and then the [meterings] sequence lists the
    decomposed [NotifyValidatedDataForBillingEnergy] nodes in the order
    of the source, and the [acknowledgements] sequence the decomposed
    [Acknowledgement] nodes in the order of the source. *)
Theorem source_order_is_kept
  (json : pyval) (ms acks : list pyval) (r : pyval)
  (Hresp : response_collections json ms acks) :
  parse_metering_poll_response json = Ok r
  <-> exists outs aouts,
      r = parse_result outs aouts
      /\ Forall2 (fun m o => __metering_decomposition m = Ok o) ms outs
      /\ Forall2 (fun a o => __acknowledgement_decomposition a = Ok o) acks aouts.
Proof.
  rewrite (parse_on_collections _ _ _ Hresp). split.
  - intros H. apply bind_Ok in H as (outs & Houts & H).
    apply bind_Ok in H as (aouts & Haouts & H).
    injection H as <-. exists outs, aouts.
    repeat split; now apply comprehension_Ok.
  - intros (outs & aouts & -> & Houts & Haouts).
    apply comprehension_Ok in Houts, Haouts.
    rewrite Houts; simpl. rewrite Haouts; reflexivity.
Qed.

Lemma int_of_chars_Raise s e : int_of_chars s = Raise e -> e = ValueError.
Proof.
  unfold int_of_chars.
  destruct (digits_value _ _ _); [ | congruence].
  destruct (_ <? _); congruence.
Qed.

Lemma without_colons_Raise z e : without_colons z = Raise e -> e = ValueError.
Proof.
  unfold without_colons.
  repeat match goal with
         | |- context [if ?b then _ else _] => destruct b
         end; congruence.
Qed.

Lemma int_or_0_Raise s e : int_or_0 s = Raise e -> e = ValueError.
Proof. destruct s; [discriminate | apply int_of_chars_Raise]. Qed.

Lemma gmtoff_of_Raise z e : gmtoff_of z = Raise e -> e = ValueError.
Proof.
  unfold gmtoff_of.
  destruct (list_eq_dec ascii_dec z ["Z"%char]); [discriminate | ].
  destruct (without_colons z) as [z'|e'] eqn:Hz; cbn [bind];
    [ | intros [= <-]; eapply without_colons_Raise, Hz ].
  repeat match goal with
         | |- context [bind (int_of_chars ?x) _] =>
             let H := fresh "H" in
             destruct (int_of_chars x) eqn:H; cbn [bind];
             [ | intros [= <-]; eapply int_of_chars_Raise, H ]
         | |- context [bind (int_or_0 ?x) _] =>
             let H := fresh "H" in
             destruct (int_or_0 x) eqn:H; cbn [bind];
             [ | intros [= <-]; eapply int_or_0_Raise, H ]
         end.
  destruct (is_char _ _); discriminate.
Qed.

Lemma strptime_chars_Raise s e : strptime_chars s = Raise e -> e = ValueError.
Proof.
  unfold strptime_chars.
  destruct (format_regex s) as [|[g [|c rest]] l]; try congruence.
  repeat match goal with
         | |- context [bind (int_of_chars ?x) _] =>
             let H := fresh "H" in
             destruct (int_of_chars x) eqn:H; cbn [bind];
             [ | intros [= <-]; eapply int_of_chars_Raise, H ]
         end.
  destruct (gmtoff_of (g_z g)) eqn:Hz; cbn [bind];
    [ | intros [= <-]; eapply gmtoff_of_Raise, Hz ].
  repeat match goal with
         | |- context [if ?b then _ else _] => destruct b
         end; congruence.
Qed.

Lemma strptime_Raise x e : strptime x = Raise e -> e = TypeError \/ e = ValueError.
Proof.
  destruct x; simpl; try (intros [= <-]; left; reflexivity).
  intros H. right. eapply strptime_chars_Raise, H.
Qed.

(** C10. The wrapping of a single occurrence is done for the two
    collections of [ResultDataSet] only.  When the [Observation] of a
    metering record is a single mapping, the comprehension of lines
    118-129 runs over the keys of that mapping, which are strings, and
    the first [.get] on a key raises: the decomposition of the record
    always fails, with [AttributeError] when the fixed fields can be read
    and the start time can be parsed, and so does the parse of every
    response that holds such a record. *)
Theorem single_observation_mapping_fails
  (md : pyval) (k : string) (v : pyval) (items : list (string * pyval))
  (Hobs : path md ["PayloadEnergyTimeSeries"; "Observation"]
          = Ok (PDict ((k, v) :: items))) :
  (exists e, __metering_decomposition md = Raise e
             /\ (e = AttributeError \/ e = TypeError \/ e = ValueError))
  /\ (forall fields st dt,
         metering_fields md = Ok fields ->
         get (PDict fields) "start_time" = Ok st ->
         strptime st = Ok dt ->
         __metering_decomposition md = Raise AttributeError)
  /\ (forall json ms acks,
         response_collections json ms acks -> In md ms ->
         exists e, parse_metering_poll_response json = Raise e).
Proof.
  assert (Hdt : forall fields st dt,
             metering_fields md = Ok fields ->
             get (PDict fields) "start_time" = Ok st ->
             strptime st = Ok dt ->
             __metering_decomposition md = Raise AttributeError).
  { intros fields st dt Hf Hst Hp. unfold __metering_decomposition.
    rewrite Hf; cbn [bind]. rewrite Hobs; cbn [bind truthy].
    rewrite Hst; cbn [bind]. rewrite Hp; cbn [bind]. reflexivity. }
  assert (Hfail : exists e, __metering_decomposition md = Raise e
                            /\ (e = AttributeError \/ e = TypeError \/ e = ValueError)).
  { destruct (metering_fields md) as [fields|e] eqn:Hf.
    - destruct (metering_fields_Ok _ _ Hf) as (mp & ts & ident & ebp & st & H).
      destruct H as (et & res & unit & -> & _).
      destruct (strptime st) as [dt|e] eqn:Hp.
      + exists AttributeError. split; [ | auto].
        eapply Hdt; [reflexivity | reflexivity | exact Hp].
      + exists e. split; [ | right; eapply strptime_Raise, Hp].
        unfold __metering_decomposition.
        rewrite Hf; cbn [bind]. rewrite Hobs; cbn [bind truthy].
        change (get (PDict _) "start_time") with (Ok st : result pyval).
        cbn [bind]. rewrite Hp. reflexivity.
    - exists e. split; [ | left; eapply metering_fields_Raise, Hf].
      unfold __metering_decomposition. rewrite Hf. reflexivity. }
  repeat split; [exact Hfail | exact Hdt | ].
  intros json ms acks Hresp Hin.
  destruct Hfail as (e & He & _).
  rewrite (parse_on_collections _ _ _ Hresp).
  destruct (comprehension_fails _ _ _ _ Hin He) as (e' & ->). simpl. eauto.
Qed.

(** ** The calendar *)

Ltac dlia := Z.div_mod_to_equations; lia.

Lemma days_before_year_decomp n400 n100 n4 n1 :
  0 <= n400 -> 0 <= n100 <= 3 -> 0 <= n4 <= 24 -> 0 <= n1 <= 3 ->
  days_before_year (n400 * 400 + 1 + n100 * 100 + n4 * 4 + n1)
  = n400 * DI400Y + n100 * DI100Y + n4 * DI4Y + n1 * 365.
Proof.
  intros. unfold days_before_year, DI400Y, DI100Y, DI4Y. cbv zeta.
  dlia.
Qed.

Lemma is_leap_decomp n400 n100 n4 n1 :
  0 <= n400 -> 0 <= n100 <= 3 -> 0 <= n4 <= 24 -> 0 <= n1 <= 3 ->
  is_leap (n400 * 400 + 1 + n100 * 100 + n4 * 4 + n1)
  = (n1 =? 3) && (negb (n4 =? 24) || (n100 =? 3)).
Proof.
  intros. unfold is_leap.
  apply eq_true_iff_eq.
  rewrite !andb_true_iff, !orb_true_iff, !negb_true_iff, !Z.eqb_eq, !Z.eqb_neq.
  dlia.
Qed.

Lemma month_day_ok_all :
  forallb (fun i => month_day_ok false (Z.of_nat i)) (seq 0%nat 365%nat)
  && forallb (fun i => month_day_ok true (Z.of_nat i)) (seq 0%nat 366%nat) = true.
Proof. vm_compute. reflexivity. Qed.

Lemma month_day_spec (leapyear : bool) n :
  0 <= n < (if leapyear then 366 else 365) -> month_day_ok leapyear n = true.
Proof.
  intros Hn. pose proof month_day_ok_all as H.
  apply andb_true_iff in H as [Hf Ht].
  rewrite forallb_forall in Hf, Ht.
  rewrite <- (Z2Nat.id n) by lia.
  destruct leapyear; [apply Ht | apply Hf]; apply in_seq; lia.
Qed.

Lemma ord2ymd_month_day n :
  ord2ymd n =
  let n0 := n - 1 in
  let n400 := n0 / DI400Y in
  let r1 := n0 mod DI400Y in
  let n100 := r1 / DI100Y in
  let r2 := r1 mod DI100Y in
  let n4 := r2 / DI4Y in
  let r3 := r2 mod DI4Y in
  let n1 := r3 / 365 in
  let r4 := r3 mod 365 in
  let y := n400 * 400 + 1 + n100 * 100 + n4 * 4 + n1 in
  if (n1 =? 4) || (n100 =? 4) then (y - 1, 12, 31)
  else
    let '(m, d) := month_day ((n1 =? 3) && (negb (n4 =? 24) || (n100 =? 3))) r4 in
    (y, m, d).
Proof.
  unfold ord2ymd, month_day. cbv zeta.
  destruct (_ || _); [reflexivity | ].
  destruct (_ <? _); reflexivity.
Qed.

Lemma ord2ymd_spec n :
  1 <= n <= MAXORDINAL ->
  let '(y, m, d) := ord2ymd n in
  valid_date y m d = true /\ ymd2ord y m d = n.
Proof.
  intros Hn. rewrite ord2ymd_month_day. cbv zeta.
  unfold MAXORDINAL in Hn.
  set (n0 := n - 1).
  set (n400 := n0 / DI400Y). set (r1 := n0 mod DI400Y).
  set (n100 := r1 / DI100Y). set (r2 := r1 mod DI100Y).
  set (n4 := r2 / DI4Y). set (r3 := r2 mod DI4Y).
  set (n1 := r3 / 365). set (r4 := r3 mod 365).
  assert (B400 : 0 <= n400 <= 24) by (unfold n400, n0, DI400Y; dlia).
  assert (B100 : 0 <= n100 <= 4) by (unfold n100, r1, n0, DI400Y, DI100Y; dlia).
  assert (B4 : 0 <= n4 <= 24) by (unfold n4, r2, DI100Y, DI4Y; dlia).
  assert (B1 : 0 <= n1 <= 4) by (unfold n1, r3, DI4Y; dlia).
  assert (E : n = n400 * DI400Y + n100 * DI100Y + n4 * DI4Y + n1 * 365 + r4 + 1).
  { unfold r4, n1, r3, n4, r2, n100, r1, n400, n0, DI400Y, DI100Y, DI4Y. dlia. }
  assert (R4 : 0 <= r4 < 365) by (unfold r4; dlia).
  assert (R2 : 0 <= r2 < DI100Y) by (unfold r2, DI100Y; dlia).
  assert (R3 : 0 <= r3 < DI4Y) by (unfold r3, DI4Y; dlia).
  assert (E3 : r3 = n1 * 365 + r4) by (unfold r4, n1; dlia).
  assert (E2 : r2 = n4 * DI4Y + n1 * 365 + r4).
  { unfold r4, n1, r3, n4, DI4Y. dlia. }
  assert (E1 : r1 = n100 * DI100Y + r2) by (unfold r2, n100, DI100Y; dlia).
  assert (R1 : 0 <= r1 < DI400Y) by (unfold r1, DI400Y; dlia).
  unfold DI400Y, DI100Y, DI4Y in *.
  destruct ((n1 =? 4) || (n100 =? 4)) eqn:Hsp.
  - assert (Hsp' : n1 = 4 \/ n100 = 4).
    { apply orb_true_iff in Hsp as [H | H]; apply Z.eqb_eq in H; auto. }
    clear Hsp.
    assert (Hy : n400 * 400 + 1 + n100 * 100 + n4 * 4 + n1 - 1
                 = n400 * 400 + 1
                   + (if n100 =? 4 then 3 else n100) * 100
                   + (if n100 =? 4 then 24 else n4) * 4 + 3).
    { destruct (Z.eqb_spec n100 4); lia. }
    rewrite Hy.
    unfold valid_date, ymd2ord, days_in_month, days_before_month.
    rewrite is_leap_decomp, days_before_year_decomp
      by (destruct (Z.eqb_spec n100 4); lia).
    unfold DI400Y, DI100Y, DI4Y, MAXYEAR.
    assert (Hleap : (3 =? 3) && (negb ((if n100 =? 4 then 24 else n4) =? 24)
                                 || ((if n100 =? 4 then 3 else n100) =? 3)) = true).
    { destruct (Z.eqb_spec n100 4); simpl; [reflexivity | ].
      apply orb_true_iff. destruct (Z.eqb_spec n4 24); [right | left; reflexivity].
      apply Z.eqb_eq. lia. }
    rewrite Hleap. change (table DAYS_IN_MONTH 12) with 31.
    change (table DAYS_BEFORE_MONTH 12) with 334.
    change ((12 =? 2) && true) with false. change ((2 <? 12) && true) with true.
    cbv iota.
    rewrite !andb_true_iff, !Z.leb_le.
    destruct (Z.eqb_spec n100 4); lia.
  - apply orb_false_iff in Hsp as [H1 H100].
    apply Z.eqb_neq in H1, H100.
    set (leapyear := (n1 =? 3) && (negb (n4 =? 24) || (n100 =? 3))).
    assert (Hr : 0 <= r4 < (if leapyear then 366 else 365)) by (destruct leapyear; lia).
    pose proof (month_day_spec leapyear r4 Hr) as Hmd.
    unfold month_day_ok in Hmd.
    destruct (month_day leapyear r4) as [m d].
    rewrite !andb_true_iff in Hmd. destruct Hmd as ((((Hm1 & Hm2) & Hd1) & Hd2) & Hs).
    unfold valid_date, ymd2ord, days_in_month, days_before_month.
    rewrite is_leap_decomp, days_before_year_decomp by lia.
    fold leapyear.
    rewrite !andb_true_iff.
    apply Z.eqb_eq in Hs. unfold MAXYEAR, DI400Y, DI100Y, DI4Y.
    repeat split; try assumption; try (apply Z.leb_le; lia).
    set (P := table DAYS_BEFORE_MONTH m + _) in *. lia.
Qed.

Lemma days_before_year_succ y :
  days_before_year (y + 1)
  = days_before_year y + 365 + (if is_leap y then 1 else 0).
Proof.
  unfold is_leap, days_before_year. cbv zeta.
  destruct (Z.eqb_spec (y mod 4) 0), (Z.eqb_spec (y mod 100) 0),
    (Z.eqb_spec (y mod 400) 0); cbn [negb andb orb]; dlia.
Qed.

Ltac tables :=
  repeat match goal with
         | |- context [table ?t ?m] =>
             let v := eval vm_compute in (table t m) in
             change (table t m) with v
         | H : context [table ?t ?m] |- _ =>
             let v := eval vm_compute in (table t m) in
             change (table t m) with v in H
         end;
  cbn [Z.eqb Z.ltb Z.compare Pos.eqb Pos.compare Pos.compare_cont andb] in *.

Lemma month_cases m : 1 <= m <= 12 ->
  m = 1 \/ m = 2 \/ m = 3 \/ m = 4 \/ m = 5 \/ m = 6 \/ m = 7 \/ m = 8 \/ m = 9
  \/ m = 10 \/ m = 11 \/ m = 12.
Proof. lia. Qed.

Lemma valid_date_inv y m d :
  valid_date y m d = true ->
  1 <= y <= MAXYEAR /\ 1 <= m <= 12 /\ 1 <= d <= days_in_month y m.
Proof.
  unfold valid_date. rewrite !andb_true_iff, !Z.leb_le. tauto.
Qed.

Lemma ymd2ord_year_bounds y m d :
  valid_date y m d = true ->
  days_before_year y < ymd2ord y m d <= days_before_year (y + 1).
Proof.
  intros H. apply valid_date_inv in H as (Hy & Hm & Hd).
  rewrite days_before_year_succ. unfold ymd2ord.
  unfold days_in_month in Hd. unfold days_before_month.
  set (D := days_before_year y).
  destruct (is_leap y);
    destruct (month_cases m Hm) as [-> | [-> | [-> | [-> | [-> | [-> | [-> | [-> | [-> | [-> | [-> | ->]]]]]]]]]]];
    tables; lia.
Qed.

Lemma days_before_year_mono y y' :
  y <= y' -> days_before_year y <= days_before_year y'.
Proof. unfold days_before_year. cbv zeta. intros. dlia. Qed.

Lemma ymd2ord_bounds y m d :
  valid_date y m d = true -> 1 <= ymd2ord y m d <= MAXORDINAL.
Proof.
  intros H. pose proof (ymd2ord_year_bounds _ _ _ H) as Hb.
  apply valid_date_inv in H as (Hy & _). unfold MAXYEAR in Hy.
  pose proof (days_before_year_mono 1 y ltac:(lia)) as H1.
  pose proof (days_before_year_mono (y + 1) 10000 ltac:(lia)) as H2.
  change (days_before_year 1) with 0 in H1.
  change (days_before_year 10000) with MAXORDINAL in H2.
  lia.
Qed.

Lemma ymd2ord_inj y m d y' m' d' :
  valid_date y m d = true -> valid_date y' m' d' = true ->
  ymd2ord y m d = ymd2ord y' m' d' -> y = y' /\ m = m' /\ d = d'.
Proof.
  intros H H' E.
  pose proof (ymd2ord_year_bounds _ _ _ H) as Hb.
  pose proof (ymd2ord_year_bounds _ _ _ H') as Hb'.
  assert (y = y') as <-.
  { destruct (Z.lt_trichotomy y y') as [Hlt | [Heq | Hgt]]; [ | exact Heq | ].
    - pose proof (days_before_year_mono (y + 1) y' ltac:(lia)). lia.
    - pose proof (days_before_year_mono (y' + 1) y ltac:(lia)). lia. }
  split; [reflexivity | ].
  apply valid_date_inv in H as (_ & Hm & Hd).
  apply valid_date_inv in H' as (_ & Hm' & Hd').
  unfold ymd2ord in E. unfold days_in_month in Hd, Hd'.
  unfold days_before_month in E.
  set (D := days_before_year y) in *.
  destruct (is_leap y);
    destruct (month_cases m Hm) as [-> | [-> | [-> | [-> | [-> | [-> | [-> | [-> | [-> | [-> | [-> | ->]]]]]]]]]]];
    destruct (month_cases m' Hm') as [-> | [-> | [-> | [-> | [-> | [-> | [-> | [-> | [-> | [-> | [-> | ->]]]]]]]]]]];
    tables; lia.
Qed.

Lemma valid_inv dt :
  valid dt = true ->
  valid_date (year dt) (month dt) (day dt) = true
  /\ (0 <= hour dt <= 23 /\ 0 <= minute dt <= 59 /\ 0 <= second dt <= 59)
  /\ valid_offset (utcoffset dt) = true.
Proof.
  unfold valid, valid_time. rewrite !andb_true_iff, !Z.leb_le. tauto.
Qed.

Lemma wall_seconds_bounds dt :
  valid dt = true -> 86400 <= wall_seconds dt < 86400 * (MAXORDINAL + 1).
Proof.
  intros H. apply valid_inv in H as (Hd & Ht & _).
  pose proof (ymd2ord_bounds _ _ _ Hd) as Hb.
  unfold wall_seconds, toordinal. lia.
Qed.

(** [start + timedelta(hours=k)] is the datetime [k] hours later on the
    same clock, whenever that is a date of the years 1 to 9999. *)
Lemma add_hours_spec dt k :
  valid dt = true ->
  86400 <= wall_seconds dt + 3600 * k < 86400 * (MAXORDINAL + 1) ->
  exists delta dt',
    timedelta_hours k = Ok delta
    /\ add dt delta = Ok dt'
    /\ valid dt' = true
    /\ wall_seconds dt' = wall_seconds dt + 3600 * k
    /\ utcoffset dt' = utcoffset dt.
Proof.
  intros Hv Hk.
  pose proof (wall_seconds_bounds dt Hv) as Hw.
  destruct (valid_inv dt Hv) as (Hd & Ht & Ho).
  pose proof (ymd2ord_bounds _ _ _ Hd) as Hb.
  unfold MAXORDINAL in *.
  unfold timedelta_hours.
  assert (Hdays : (999999999 <? Z.abs (k * 3600 / 86400)) = false).
  { apply Z.ltb_ge. dlia. }
  rewrite Hdays.
  exists (mkTimedelta (k * 3600 / 86400) ((k * 3600) mod 86400)).
  unfold add. cbn [days seconds].
  set (s := hour dt * 3600 + minute dt * 60 + second dt + (k * 3600) mod 86400).
  set (d := toordinal dt + k * 3600 / 86400 + s / 86400).
  assert (Ed : d * 86400 + s mod 86400 = wall_seconds dt + 3600 * k).
  { unfold d, s, wall_seconds. dlia. }
  assert (Hs : 0 <= s mod 86400 < 86400) by dlia.
  assert (Hd1 : 1 <= d <= 3652059) by lia.
  assert (Habs : (999999999 <? Z.abs d) = false) by (apply Z.ltb_ge; lia).
  rewrite Habs.
  assert (Hrange : (0 <? d) && (d <=? MAXORDINAL) = true).
  { apply andb_true_iff. rewrite Z.ltb_lt, Z.leb_le. unfold MAXORDINAL. lia. }
  rewrite Hrange.
  pose proof (ord2ymd_spec d ltac:(unfold MAXORDINAL; lia)) as Hymd.
  destruct (ord2ymd d) as [[y m] d']. destruct Hymd as (Hvd & Hord).
  eexists. split; [reflexivity | ]. split; [reflexivity | ].
  unfold valid, valid_time, wall_seconds, toordinal; cbn [year month day hour minute second utcoffset].
  rewrite Hvd, Ho, Hord.
  unfold wall_seconds, toordinal in Ed.
  generalize dependent (s mod 86400). intros t Et Ht'.
  split; [ | split; [ | reflexivity]].
  - cbn [andb]. rewrite andb_true_r, !andb_true_iff, !Z.leb_le. dlia.
  - dlia.
Qed.

(** ** Parsing and printing of timestamps *)

(** [strptime] returns valid datetimes only. *)
Lemma strptime_chars_valid s dt : strptime_chars s = Ok dt -> valid dt = true.
Proof.
  unfold strptime_chars.
  destruct (format_regex s) as [|[g [|c rest]] l]; try discriminate.
  repeat match goal with
         | |- context [bind ?r _] => destruct r; cbn [bind]; [ | discriminate]
         end.
  destruct (valid_date _ _ _) eqn:Hd; cbn [negb]; [ | discriminate].
  destruct (valid_offset _) eqn:Ho; cbn [negb]; [ | discriminate].
  destruct (valid_time _ _ _) eqn:Ht; cbn [negb]; [ | discriminate].
  intros [= <-]. unfold valid; cbn [year month day hour minute second utcoffset].
  rewrite Hd, Ho, Ht. reflexivity.
Qed.

Lemma strptime_valid x dt : strptime x = Ok dt -> valid dt = true.
Proof. destruct x; try discriminate. apply strptime_chars_valid. Qed.
(** ** The observations of a metering record *)

Lemma observation_timestamp_index dt e :
  observation_timestamp dt e
  = (k <- sequence_index e ;;
     delta <- timedelta_hours k ;;
     t <- add dt delta ;;
     Ok (PStr (isoformat t))).
Proof.
  unfold observation_timestamp, sequence_index.
  destruct (get e "@Sequence"); reflexivity.
Qed.

Lemma observation_timestamp_spec dt e k :
  valid dt = true ->
  sequence_index e = Ok k ->
  representable (wall_seconds dt + 3600 * k) ->
  exists dt',
    observation_timestamp dt e = Ok (PStr (isoformat dt'))
    /\ valid dt' = true
    /\ wall_seconds dt' = wall_seconds dt + 3600 * k
    /\ utcoffset dt' = utcoffset dt.
Proof.
  intros Hv Hk Hr.
  destruct (add_hours_spec dt k Hv Hr) as (delta & dt' & Hd & Ha & H).
  exists dt'. split; [ | exact H].
  rewrite observation_timestamp_index, Hk; cbn [bind].
  rewrite Hd; cbn [bind]. rewrite Ha. reflexivity.
Qed.

(** *** Reading an ISO timestamp back *)

Lemma Z_range_ind (P : Z -> Prop) (lo : Z) (n : nat) :
  (forall i : nat, (i < n)%nat -> P (lo + Z.of_nat i)) ->
  forall v, lo <= v < lo + Z.of_nat n -> P v.
Proof.
  intros H v Hv.
  replace v with (lo + Z.of_nat (Z.to_nat (v - lo))) by lia.
  apply H. lia.
Qed.

Ltac enumerate v lo n tac :=
  pattern v; apply (Z_range_ind _ lo n); [ | lia];
  let i := fresh "i" in
  let Hi := fresh "Hi" in
  intros i Hi;
  repeat (destruct i as [|i]; [tac | try (exfalso; lia)]).

Lemma flat_map_map {A B C} (f : B -> list C) (g : A -> B) l :
  flat_map f (map g l) = flat_map (fun x => f (g x)) l.
Proof. induction l; simpl; congruence. Qed.

Lemma then_field_then {A} (p q : rx) (K : list ascii -> list ascii -> list A) s :
  then_ p (fun a => then_ q (fun _ => K a)) s
  = flat_map (fun ar => K (fst ar) (snd ar)) (field_then p q s).
Proof.
  unfold then_, field_then.
  induction (p s) as [|ar l IH]; simpl; [reflexivity | ].
  rewrite flat_map_app, flat_map_map, IH. reflexivity.
Qed.

Lemma then_field_single {A} (p q : rx) (K : list ascii -> list ascii -> list A) s a r :
  field_then p q s = [(a, r)] ->
  then_ p (fun a => then_ q (fun _ => K a)) s = K a r.
Proof.
  intros H. rewrite then_field_then, H. simpl. apply app_nil_r.
Qed.

Lemma match_m v r :
  1 <= v <= 12 ->
  field_then rx_m rx_dash (zero_padded 2 v ++ "-"%char :: r) = [(zero_padded 2 v, r)].
Proof.
  intros Hv. revert r.
  enumerate v 1 12%nat ltac:(intros; vm_compute; reflexivity).
Qed.

Lemma match_day v r :
  1 <= v <= 31 ->
  field_then rx_day rx_T (zero_padded 2 v ++ "T"%char :: r) = [(zero_padded 2 v, r)].
Proof.
  intros Hv. revert r.
  enumerate v 1 31%nat ltac:(intros; vm_compute; reflexivity).
Qed.

Lemma match_H v r :
  0 <= v <= 23 ->
  field_then rx_H rx_colon (zero_padded 2 v ++ ":"%char :: r) = [(zero_padded 2 v, r)].
Proof.
  intros Hv. revert r.
  enumerate v 0 24%nat ltac:(intros; vm_compute; reflexivity).
Qed.

Lemma match_M v r :
  0 <= v <= 59 ->
  field_then rx_M rx_colon (zero_padded 2 v ++ ":"%char :: r) = [(zero_padded 2 v, r)].
Proof.
  intros Hv. revert r.
  enumerate v 0 60%nat ltac:(intros; vm_compute; reflexivity).
Qed.

Lemma is_digit_digit a : 0 <= a <= 9 -> is_digit (digit a) = true.
Proof.
  intros Ha. enumerate a 0 10%nat ltac:(vm_compute; reflexivity).
Qed.

Lemma zero_padded_4 y :
  zero_padded 4 y
  = [digit (y / 10 / 10 / 10 mod 10); digit (y / 10 / 10 mod 10);
     digit (y / 10 mod 10); digit (y mod 10)].
Proof. reflexivity. Qed.

Lemma match_Y y r :
  field_then rx_Y rx_dash (zero_padded 4 y ++ "-"%char :: r) = [(zero_padded 4 y, r)].
Proof.
  rewrite zero_padded_4.
  assert (Hd : forall a, is_digit (digit (a mod 10)) = true).
  { intros a. apply is_digit_digit. pose proof (Z.mod_pos_bound a 10). lia. }
  unfold field_then, rx_Y, rx_seq, rx_d, rx_dash, rx_char, rx_class.
  cbn [app flat_map map fst snd].
  rewrite !Hd. cbn [app flat_map map fst snd]. rewrite !Hd.
  cbn [app flat_map map fst snd]. rewrite !Hd.
  cbn [app flat_map map fst snd]. rewrite !Hd.
  cbn [app flat_map map fst snd]. reflexivity.
Qed.

Lemma Z_range_forallb (f : Z -> bool) (lo : Z) (n : nat) :
  forallb (fun i => f (lo + Z.of_nat i)) (seq 0%nat n) = true ->
  forall v, lo <= v < lo + Z.of_nat n -> f v = true.
Proof.
  intros H. apply Z_range_ind. intros i Hi.
  rewrite forallb_forall in H. apply H, in_seq. lia.
Qed.

Lemma offset_text_ok_all :
  forallb (fun h => forallb (fun m => offset_text_ok false (0 + Z.of_nat h) (0 + Z.of_nat m)
                                      && offset_text_ok true (0 + Z.of_nat h) (0 + Z.of_nat m))
                      (seq 0%nat 60%nat))
    (seq 0%nat 24%nat) = true.
Proof. vm_compute. reflexivity. Qed.

Lemma offset_text_spec negative hh mm :
  0 <= hh <= 23 -> 0 <= mm <= 59 ->
  rx_z (offset_text negative hh mm) = [(offset_text negative hh mm, [])]
  /\ gmtoff_of (offset_text negative hh mm)
     = Ok ((if negative then -1 else 1) * (hh * 3600 + mm * 60), 0).
Proof.
  intros Hh Hm.
  assert (H : offset_text_ok negative hh mm = true).
  { pose proof offset_text_ok_all as H.
    pose proof (Z_range_forallb
                  (fun h => forallb (fun m => offset_text_ok false h (0 + Z.of_nat m)
                                              && offset_text_ok true h (0 + Z.of_nat m))
                              (seq 0%nat 60%nat)) 0 24 H hh ltac:(lia)) as H1.
    cbv beta in H1.
    pose proof (Z_range_forallb
                  (fun m => offset_text_ok false hh m && offset_text_ok true hh m)
                  0 60 H1 mm ltac:(lia)) as H2.
    cbv beta in H2. apply andb_true_iff in H2 as [Hf Ht].
    destruct negative; assumption. }
  unfold offset_text_ok in H.
  destruct (rx_z _) as [|[z [|c r]] [|x l]]; try discriminate.
  destruct (gmtoff_of _) as [[g f]|e]; try discriminate.
  rewrite !andb_true_iff, !Z.eqb_eq in H. destruct H as ((Hz & ->) & ->).
  destruct (list_eq_dec ascii_dec z _) as [-> | ]; [ | discriminate].
  split; reflexivity.
Qed.

Lemma rx_z_digit a t : 0 <= a <= 9 -> rx_z (digit a :: t) = [].
Proof.
  intros Ha. revert t. enumerate a 0 10%nat ltac:(intros; vm_compute; reflexivity).
Qed.

Lemma rx_S_padded v t :
  0 <= v <= 59 ->
  rx_S (zero_padded 2 v ++ t)
  = [(zero_padded 2 v, t); ([digit (v / 10 mod 10)], digit (v mod 10) :: t)].
Proof.
  intros Hv. revert t. enumerate v 0 60%nat ltac:(intros; vm_compute; reflexivity).
Qed.

Lemma match_S {A} (K : list ascii -> list ascii -> list ascii -> list A) v t :
  0 <= v <= 59 ->
  then_ rx_S (fun S => then_ rx_z (K S)) (zero_padded 2 v ++ t)
  = then_ rx_z (K (zero_padded 2 v)) t.
Proof.
  intros Hv. unfold then_ at 1. rewrite (rx_S_padded v t Hv).
  cbn [flat_map fst snd]. unfold then_ at 2.
  rewrite rx_z_digit by (pose proof (Z.mod_pos_bound v 10); lia).
  cbn [flat_map]. rewrite !app_nil_r. reflexivity.
Qed.

Lemma int_padded_2_all :
  forallb (fun i => int_padded_ok 2 (0 + Z.of_nat i)) (seq 0%nat 100%nat) = true.
Proof. vm_compute. reflexivity. Qed.

Lemma int_padded_2 v : 0 <= v <= 99 -> int_of_chars (zero_padded 2 v) = Ok v.
Proof.
  intros Hv.
  pose proof (Z_range_forallb (int_padded_ok 2) 0 100 int_padded_2_all v ltac:(lia)) as H.
  unfold int_padded_ok in H.
  destruct (int_of_chars _); [ | discriminate]. apply Z.eqb_eq in H. congruence.
Qed.

Lemma digit_facts a :
  0 <= a <= 9 ->
  is_space (digit a) = false
  /\ Ascii.eqb (digit a) "-" = false
  /\ Ascii.eqb (digit a) "+" = false
  /\ digit_value (digit a) = a.
Proof.
  intros Ha. enumerate a 0 10%nat ltac:(vm_compute; repeat split; reflexivity).
Qed.

Lemma int_padded_4 v : 0 <= v <= 9999 -> int_of_chars (zero_padded 4 v) = Ok v.
Proof.
  intros Hv. rewrite zero_padded_4.
  set (a := v / 10 / 10 / 10 mod 10). set (b := v / 10 / 10 mod 10).
  set (c := v / 10 mod 10). set (d := v mod 10).
  assert (Ha : 0 <= a <= 9) by (unfold a; pose proof (Z.mod_pos_bound (v / 10 / 10 / 10) 10); lia).
  assert (Hb : 0 <= b <= 9) by (unfold b; pose proof (Z.mod_pos_bound (v / 10 / 10) 10); lia).
  assert (Hc : 0 <= c <= 9) by (unfold c; pose proof (Z.mod_pos_bound (v / 10) 10); lia).
  assert (Hd : 0 <= d <= 9) by (unfold d; pose proof (Z.mod_pos_bound v 10); lia).
  assert (E : v = ((a * 10 + b) * 10 + c) * 10 + d).
  { unfold a, b, c, d. Z.div_mod_to_equations. lia. }
  destruct (digit_facts a Ha) as (Sa & Ma & Pa & Va).
  destruct (digit_facts b Hb) as (Sb & Mb & Pb & Vb).
  destruct (digit_facts c Hc) as (Sc & Mc & Pc & Vc).
  destruct (digit_facts d Hd) as (Sd & Md & Pd & Vd).
  unfold int_of_chars, strip.
  cbn [lstrip]. rewrite Sa. cbn [rev app lstrip]. rewrite Sd. cbn [rev app].
  rewrite Ma, Pa. cbn [fst snd digits_value filter].
  rewrite !is_digit_digit by assumption.
  rewrite Va, Vb, Vc, Vd. cbn [length filter].
  change (MAX_STR_DIGITS <? Z.of_nat 4) with false. cbv iota.
  f_equal. lia.
Qed.

Lemma format_offset_minutes off :
  off mod US_PER_MINUTE = 0 ->
  format_offset off
  = offset_text (off <? 0) (Z.abs off / US_PER_HOUR)
      (Z.abs off mod US_PER_HOUR / US_PER_MINUTE).
Proof.
  intros Hm. unfold format_offset, offset_text.
  assert (E : (Z.abs off mod US_PER_HOUR) mod US_PER_MINUTE = 0).
  { change US_PER_HOUR with 3600000000 in *; change US_PER_MINUTE with 60000000 in *; change US_PER_SECOND with 1000000 in *.
    Z.div_mod_to_equations. lia. }
  rewrite E. cbn [Z.eqb app]. rewrite app_nil_r. reflexivity.
Qed.

Lemma days_in_month_le y m : 1 <= m <= 12 -> days_in_month y m <= 31.
Proof.
  intros Hm. unfold days_in_month.
  destruct (is_leap y);
    destruct (month_cases m Hm) as [-> | [-> | [-> | [-> | [-> | [-> | [-> | [-> | [-> | [-> | [-> | ->]]]]]]]]]]];
    tables; lia.
Qed.

(** A valid datetime whose offset is a number of whole minutes is read
    back from its ISO form. *)
Lemma strptime_isoformat dt :
  valid dt = true ->
  utcoffset dt mod US_PER_MINUTE = 0 ->
  strptime (PStr (isoformat dt)) = Ok dt.
Proof.
  intros Hv Hoff.
  destruct (valid_inv dt Hv) as (Hd & (Hh & Hmi & Hs) & Ho).
  pose proof Hd as Hd'.
  apply valid_date_inv in Hd' as (Hy & Hm & Hday). unfold MAXYEAR in Hy.
  pose proof (days_in_month_le (year dt) (month dt) Hm) as Hdim.
  assert (Hday31 : 1 <= day dt <= 31) by lia.
  assert (Hoh : 0 <= Z.abs (utcoffset dt) / US_PER_HOUR <= 23).
  { unfold valid_offset in Ho. change MAXOFFSET with 86399999999 in Ho.
    rewrite andb_true_iff, !Z.leb_le in Ho.
    change US_PER_HOUR with 3600000000; change US_PER_MINUTE with 60000000; change US_PER_SECOND with 1000000. Z.div_mod_to_equations. lia. }
  assert (Hom : 0 <= Z.abs (utcoffset dt) mod US_PER_HOUR / US_PER_MINUTE <= 59).
  { change US_PER_HOUR with 3600000000; change US_PER_MINUTE with 60000000; change US_PER_SECOND with 1000000. Z.div_mod_to_equations. lia. }
  destruct (offset_text_spec (utcoffset dt <? 0) _ _ Hoh Hom) as (Hz & Hg).
  unfold strptime, isoformat. rewrite list_ascii_of_string_of_list_ascii.
  unfold strptime_chars, isoformat_chars, format_regex.
  rewrite (format_offset_minutes _ Hoff).
  cbn [app].
  rewrite (then_field_single _ _ _ _ _ _ (match_Y _ _)).
  rewrite (then_field_single _ _ _ _ _ _ (match_m _ _ Hm)).
  rewrite (then_field_single _ _ _ _ _ _ (match_day _ _ Hday31)).
  rewrite (then_field_single _ _ _ _ _ _ (match_H _ _ Hh)).
  rewrite (then_field_single _ _ _ _ _ _ (match_M _ _ Hmi)).
  rewrite (match_S _ _ _ Hs).
  unfold then_. rewrite Hz. cbn [flat_map fst snd app g_Y g_m g_d g_H g_M g_S g_z].
  rewrite int_padded_4 by lia. rewrite !int_padded_2 by lia. cbn [bind].
  rewrite Hg. cbn [bind fst snd].
  assert (Eoff : (if utcoffset dt <? 0 then -1 else 1)
                 * (Z.abs (utcoffset dt) / US_PER_HOUR * 3600
                    + Z.abs (utcoffset dt) mod US_PER_HOUR / US_PER_MINUTE * 60)
                 * US_PER_SECOND + 0 = utcoffset dt).
  { change US_PER_HOUR with 3600000000 in *.
    change US_PER_MINUTE with 60000000 in *.
    change US_PER_SECOND with 1000000 in *.
    destruct (Z.ltb_spec (utcoffset dt) 0); Z.div_mod_to_equations; lia. }
  rewrite Eoff, Hd, Ho.
  assert (Ht : valid_time (hour dt) (minute dt) (second dt) = true).
  { unfold valid_time. rewrite !andb_true_iff, !Z.leb_le. lia. }
  rewrite Ht. cbn [negb].
  destruct dt; reflexivity.
Qed.


(** ** The theorems at the sample responses *)

Lemma sample_poll_collections :
  response_collections sample_poll [sample_series; sample_shapeless]
    [sample_acknowledgement].
Proof.
  eexists; eexists.
  split; [reflexivity | ]. split; [reflexivity | ]. split; [reflexivity | ].
  split; reflexivity.
Defined.

Lemma sample_shapeless_neither : neither_shape sample_shapeless.
Proof.
  split; [eexists; reflexivity | ].
  split; eexists; split; reflexivity.
Defined.

Lemma malformed_structure_error_witness :
  parse_metering_poll_response (PDict [("Envelope", PDict [("Header", PNone)])])
  = Raise AttributeError
  /\ AttributeError <> NO_DATA.
Proof.
  apply (malformed_structure_error (PDict [("Envelope", PDict [("Header", PNone)])])).
  reflexivity.
Defined.

Lemma neither_shape_keeps_placeholder_witness :
  (forall m, neither_shape m -> __metering_decomposition m = Ok PNone)
  /\ exists outs aouts,
      parse_metering_poll_response sample_poll = Ok (parse_result outs aouts)
      /\ length outs = length [sample_series; sample_shapeless]
      /\ forall i m, nth_error [sample_series; sample_shapeless] i = Some m ->
                     neither_shape m -> nth_error outs i = Some PNone.
Proof.
  apply (neither_shape_keeps_placeholder sample_poll
           [sample_series; sample_shapeless] [sample_acknowledgement]).
  - exact sample_poll_collections.
  - constructor; [right; eexists; vm_compute; reflexivity | ].
    constructor; [left; exact sample_shapeless_neither | constructor].
  - constructor; [eexists; vm_compute; reflexivity | constructor].
Defined.

Lemma source_order_is_kept_witness :
  exists r,
    parse_metering_poll_response sample_poll = Ok r
    /\ exists outs aouts,
        r = parse_result outs aouts
        /\ Forall2 (fun m o => __metering_decomposition m = Ok o)
             [sample_series; sample_shapeless] outs
        /\ Forall2 (fun a o => __acknowledgement_decomposition a = Ok o)
             [sample_acknowledgement] aouts.
Proof.
  eexists. split; [vm_compute; reflexivity | ].
  apply (proj1 (source_order_is_kept sample_poll
                  [sample_series; sample_shapeless] [sample_acknowledgement]
                  _ sample_poll_collections)).
  vm_compute. reflexivity.
Defined.

Lemma single_observation_mapping_fails_witness :
  (exists e, __metering_decomposition sample_single_item = Raise e
             /\ (e = AttributeError \/ e = TypeError \/ e = ValueError))
  /\ (forall fields st dt,
         metering_fields sample_single_item = Ok fields ->
         get (PDict fields) "start_time" = Ok st ->
         strptime st = Ok dt ->
         __metering_decomposition sample_single_item = Raise AttributeError)
  /\ (forall json ms acks,
         response_collections json ms acks -> In sample_single_item ms ->
         exists e, parse_metering_poll_response json = Raise e).
Proof.
  apply (single_observation_mapping_fails sample_single_item
           "@Sequence" (PStr "0") [("Metered", PStr "1.250")]).
  reflexivity.
Defined.

(** * Further properties of the parser *)

(** ** Where the exceptions come from *)

Lemma bind_Raise {A B} (r : result A) (k : A -> result B) (e : pyerr) :
  bind r k = Raise e -> r = Raise e \/ exists a, r = Ok a /\ k a = Raise e.
Proof. destruct r as [a|e']; simpl; [eauto | intros [= ->]; auto]. Qed.

Lemma comprehension_Raise_inv {A B} (f : A -> result B) xs e :
  comprehension f xs = Raise e ->
  exists pre x post ys,
    xs = pre ++ x :: post /\ comprehension f pre = Ok ys /\ f x = Raise e.
Proof.
  induction xs as [|x xs IH]; simpl; [discriminate | ].
  destruct (f x) as [y|e'] eqn:Hx; simpl.
  - destruct (comprehension f xs) as [ys|e''] eqn:Hxs; simpl; [discriminate | ].
    intros [= ->]. destruct (IH eq_refl) as (pre & x' & post & ys & -> & Hpre & Hx').
    exists (x :: pre), x', post, (y :: ys). simpl. rewrite Hx, Hpre. auto.
  - intros [= ->]. exists [], x, xs, []. auto.
Qed.

Lemma int_Raise x e : int x = Raise e -> e = TypeError \/ e = ValueError.
Proof.
  destruct x; simpl; try (intros [= <-]; auto).
  intros H. right. eapply int_of_chars_Raise, H.
Qed.

Lemma timedelta_hours_Raise k e : timedelta_hours k = Raise e -> e = OverflowError.
Proof. unfold timedelta_hours. destruct (_ <? _); congruence. Qed.

Lemma add_Raise dt delta e : add dt delta = Raise e -> e = OverflowError.
Proof.
  unfold add. destruct (_ <? _); [congruence | ].
  destruct (_ && _); [ | congruence].
  destruct (ord2ymd _) as [[y m] d]. discriminate.
Qed.

Lemma get_Raise x k e : get x k = Raise e -> e = AttributeError.
Proof. apply get_default_Raise. Qed.

Lemma observation_timestamp_Raise dt e err :
  observation_timestamp dt e = Raise err ->
  err = AttributeError \/ err = TypeError \/ err = ValueError \/ err = OverflowError.
Proof.
  unfold observation_timestamp. intros H.
  apply bind_Raise in H as [H | (s & _ & H)]; [apply get_Raise in H; auto | ].
  apply bind_Raise in H as [H | (k & _ & H)]; [apply int_Raise in H; tauto | ].
  apply bind_Raise in H as [H | (d & _ & H)];
    [apply timedelta_hours_Raise in H; auto | ].
  apply bind_Raise in H as [H | (t & _ & H)]; [apply add_Raise in H; auto | ].
  discriminate.
Qed.

Lemma values_Raise x e : values x = Raise e -> e = AttributeError.
Proof. destruct x; simpl; congruence. Qed.

Lemma index_Raise xs i e : index xs i = Raise e -> e = IndexError.
Proof. unfold index. destruct (nth_error xs i); congruence. Qed.

Lemma observation_entry_Raise dt e err :
  observation_entry dt e = Raise err -> runtime_error err.
Proof.
  unfold observation_entry, runtime_error. intros H.
  apply bind_Raise in H as [H | (m & _ & H)]; [apply get_Raise in H; auto | ].
  destruct (truthy m).
  - apply bind_Raise in H as [H | (t & _ & H)];
      [apply observation_timestamp_Raise in H; tauto | ].
    apply bind_Raise in H as [H | (v & _ & H)]; [apply get_Raise in H; auto | ].
    discriminate.
  - apply bind_Raise in H as [H | (t & _ & H)];
      [apply observation_timestamp_Raise in H; tauto | ].
    apply bind_Raise in H as [H | (vs & _ & H)]; [apply values_Raise in H; auto | ].
    apply bind_Raise in H as [H | (c & _ & H)]; [apply index_Raise in H; tauto | ].
    apply bind_Raise in H as [H | (v & _ & H)]; [apply get_Raise in H; auto | ].
    discriminate.
Qed.

Lemma iter_Raise x e : iter x = Raise e -> e = TypeError.
Proof. destruct x; simpl; congruence. Qed.

Lemma metering_decomposition_Raise md e :
  __metering_decomposition md = Raise e -> runtime_error e.
Proof.
  unfold __metering_decomposition, runtime_error. intros H.
  apply bind_Raise in H as [H | (fields & _ & H)];
    [apply metering_fields_Raise in H; auto | ].
  apply bind_Raise in H as [H | (c & _ & H)]; [apply path_Raise in H; auto | ].
  destruct (truthy c).
  - apply bind_Raise in H as [H | (o & _ & H)]; [apply path_Raise in H; auto | ].
    apply bind_Raise in H as [H | (s & _ & H)]; [apply get_Raise in H; auto | ].
    apply bind_Raise in H as [H | (dt & _ & H)]; [apply strptime_Raise in H; tauto | ].
    apply bind_Raise in H as [H | (es & _ & H)]; [apply iter_Raise in H; auto | ].
    apply bind_Raise in H as [H | (l & _ & H)]; [ | discriminate].
    apply comprehension_Raise_inv in H as (pre & x & post & ys & _ & _ & H).
    apply observation_entry_Raise in H. exact H.
  - apply bind_Raise in H as [H | (c' & _ & H)]; [apply path_Raise in H; auto | ].
    destruct (truthy c'); [ | discriminate].
    apply bind_Raise in H as [H | (s & _ & H)]; [apply get_Raise in H; auto | ].
    apply bind_Raise in H as [H | (dt & _ & H)]; [apply strptime_Raise in H; tauto | ].
    apply bind_Raise in H as [H | (o & _ & H)]; [apply path_Raise in H; auto | ].
    apply bind_Raise in H as [H | (v & _ & H)]; [apply path_Raise in H; auto | ].
    discriminate.
Qed.

Lemma acknowledgement_decomposition_Raise a e :
  __acknowledgement_decomposition a = Raise e -> e = AttributeError.
Proof.
  unfold __acknowledgement_decomposition. intros H.
  repeat (apply bind_Raise in H as [H | (? & _ & H)];
          [eapply path_Raise, H | ]).
  discriminate.
Qed.

(** ** Sequence indices outside the calendar *)

Lemma add_hours_overflow dt k :
  valid dt = true ->
  ~ representable (wall_seconds dt + 3600 * k) ->
  (delta <- timedelta_hours k ;; add dt delta) = Raise OverflowError.
Proof.
  intros Hv Hk.
  destruct (timedelta_hours k) as [delta|e] eqn:Hd; cbn [bind];
    [ | apply timedelta_hours_Raise in Hd; congruence].
  destruct (add dt delta) as [dt'|e] eqn:Ha;
    [ | apply add_Raise in Ha; congruence].
  exfalso. apply Hk.
  unfold timedelta_hours in Hd.
  destruct (_ <? _); [discriminate | ]. injection Hd as <-.
  unfold add in Ha. cbn [days seconds] in Ha.
  set (s := hour dt * 3600 + minute dt * 60 + second dt + (k * 3600) mod 86400) in Ha.
  set (d := toordinal dt + k * 3600 / 86400 + s / 86400) in Ha.
  destruct (_ <? _); [discriminate | ].
  destruct ((0 <? d) && (d <=? MAXORDINAL)) eqn:Hr; [ | discriminate].
  apply andb_true_iff in Hr as [H0 H1].
  apply Z.ltb_lt in H0. apply Z.leb_le in H1.
  assert (Ed : d * 86400 + s mod 86400 = wall_seconds dt + 3600 * k).
  { unfold d, s, wall_seconds. Z.div_mod_to_equations. lia. }
  assert (Hs : 0 <= s mod 86400 < 86400) by (Z.div_mod_to_equations; lia).
  unfold representable. lia.
Qed.

Lemma add_hours_cases dt k :
  valid dt = true ->
  (representable (wall_seconds dt + 3600 * k)
   /\ exists dt',
       (delta <- timedelta_hours k ;; add dt delta) = Ok dt'
       /\ valid dt' = true
       /\ wall_seconds dt' = wall_seconds dt + 3600 * k
       /\ utcoffset dt' = utcoffset dt)
  \/ (~ representable (wall_seconds dt + 3600 * k)
      /\ (delta <- timedelta_hours k ;; add dt delta) = Raise OverflowError).
Proof.
  intros Hv.
  assert (Hdec : representable (wall_seconds dt + 3600 * k)
                 \/ ~ representable (wall_seconds dt + 3600 * k))
    by (unfold representable; lia).
  destruct Hdec as [Hr | Hr].
  - left. split; [exact Hr | ].
    destruct (add_hours_spec dt k Hv Hr) as (delta & dt' & Hd & Ha & H).
    exists dt'. rewrite Hd; cbn [bind]. auto.
  - right. split; [exact Hr | apply add_hours_overflow; assumption].
Qed.

(** ** More on the metering decomposer *)

Lemma metering_fields_reads md fields :
  metering_fields md = Ok fields -> reads md METERING_PATHS fields.
Proof.
  unfold metering_fields, METERING_PATHS, reads.
  repeat (path_cases; [ | discriminate]).
  intros [= <-]. repeat constructor; assumption.
Qed.

(** X2. [__metering_decomposition] returns [None] for exactly the records
    whose fixed fields can be read and which have neither an
    [Observation] nor a [ProfiledObservation]; the start time of such a
    record is never parsed. *)
Theorem metering_none_iff (md : pyval) :
  __metering_decomposition md = Ok PNone <-> neither_shape md.
Proof.
  split; [ | apply neither_shape_None].
  unfold __metering_decomposition, neither_shape. intros H.
  apply bind_Ok in H as (fields & Hf & H).
  apply bind_Ok in H as (c & Hc & H).
  destruct (truthy c) eqn:Htc.
  - exfalso.
    repeat (apply bind_Ok in H as (? & _ & H)). discriminate.
  - apply bind_Ok in H as (c' & Hc' & H).
    destruct (truthy c') eqn:Htc'.
    + exfalso.
      repeat (apply bind_Ok in H as (? & _ & H)). discriminate.
    + eauto 10.
Qed.

(** ** More on the envelope navigator *)

Lemma runtime_error_not_no_data e : runtime_error e -> e <> NO_DATA.
Proof. unfold runtime_error, NO_DATA. intuition congruence. Qed.

Lemma collection_Raise rds key e : collection rds key = Raise e -> e = AttributeError.
Proof.
  unfold collection. intros H.
  apply bind_Raise in H as [H | (c & _ & H)]; [ | discriminate].
  eapply get_default_Raise, H.
Qed.

(** What the parser does once it holds a non-empty [ResultDataSet]. *)
Lemma parse_exceptions_after_check rds e :
  (acknowledgment <- collection rds "Acknowledgement" ;;
   metering <- collection rds "NotifyValidatedDataForBillingEnergy" ;;
   ms <- iter metering ;;
   metering_list <- comprehension __metering_decomposition ms ;;
   acks <- iter acknowledgment ;;
   acknowledgment_list <- comprehension __acknowledgement_decomposition acks ;;
   Ok (PDict [("meterings", PList metering_list);
              ("acknowledgements", PList acknowledgment_list)])) = Raise e ->
  runtime_error e.
Proof.
  unfold runtime_error. intros H.
  apply bind_Raise in H as [H | (a & _ & H)]; [apply collection_Raise in H; auto | ].
  apply bind_Raise in H as [H | (m & _ & H)]; [apply collection_Raise in H; auto | ].
  apply bind_Raise in H as [H | (ms & _ & H)]; [apply iter_Raise in H; auto | ].
  apply bind_Raise in H as [H | (ml & _ & H)].
  { apply comprehension_Raise_inv in H as (pre & x & post & ys & _ & _ & H).
    apply metering_decomposition_Raise in H. exact H. }
  apply bind_Raise in H as [H | (acks & _ & H)]; [apply iter_Raise in H; auto | ].
  apply bind_Raise in H as [H | (al & _ & H)]; [ | discriminate].
  apply comprehension_Raise_inv in H as (pre & x & post & ys & _ & _ & H).
  apply acknowledgement_decomposition_Raise in H. auto.
Qed.

(** X3. The exception [Exception("No Data found in the response")] is
    raised in exactly one situation: the three lookups of the envelope
    lead to a mapping, and that mapping has no [ResultDataSet] or a
    [ResultDataSet] that is empty.  No failure inside a record is ever
    reported as missing data. *)
Theorem no_data_iff (json : pyval) :
  parse_metering_poll_response json = Raise NO_DATA
  <-> exists pitems,
      path json ["Envelope"; "Body"; "PollForDataResponse"] = Ok (PDict pitems)
      /\ (lookup "ResultDataSet" pitems = None
          \/ exists v, lookup "ResultDataSet" pitems = Some v /\ truthy v = false).
Proof.
  split.
  - unfold parse_metering_poll_response. intros H.
    apply bind_Raise in H as [H | (p & Hp & H)];
      [apply path_Raise in H; discriminate | ].
    apply bind_Raise in H as [H | (rds & Hr & H)];
      [apply get_default_Raise in H; discriminate | ].
    destruct p as [|s|pitems|l]; try discriminate.
    exists pitems. split; [exact Hp | ].
    destruct (truthy rds) eqn:Ht; cbn [negb] in H.
    + apply parse_exceptions_after_check, runtime_error_not_no_data in H.
      contradiction.
    + simpl in Hr. destruct (lookup "ResultDataSet" pitems) as [v|]; [ | auto].
      injection Hr as ->. eauto.
  - intros (pitems & Hp & Hr). unfold parse_metering_poll_response.
    rewrite Hp; simpl.
    destruct Hr as [-> | (v & -> & Hv)]; simpl; [ | rewrite Hv]; reflexivity.
Qed.

(** X4. Whatever the tree, the parser lets only these exceptions through:
    the no-data [Exception], [AttributeError], [TypeError], [ValueError],
    [IndexError] and [OverflowError]. *)
Theorem parse_exceptions (json : pyval) (e : pyerr)
  (Hraise : parse_metering_poll_response json = Raise e) :
  e = NO_DATA \/ runtime_error e.
Proof.
  unfold parse_metering_poll_response in Hraise.
  apply bind_Raise in Hraise as [H | (p & Hp & H)];
    [apply path_Raise in H; right; left; exact H | ].
  apply bind_Raise in H as [H | (rds & Hr & H)];
    [apply get_default_Raise in H; right; left; exact H | ].
  destruct (truthy rds); cbn [negb] in H.
  - right. eapply parse_exceptions_after_check, H.
  - left. congruence.
Qed.

(** X5. No partial result is built from the records that can be
    decomposed.  The metering records are decomposed first, in the order
    of the source, and the first one that fails gives the exception of
    the parse; only when all of them succeed are the acknowledgements
    decomposed, and then the first acknowledgement that fails gives
    it. *)
Theorem first_failure_decides
  (json : pyval) (ms acks : list pyval)
  (Hresp : response_collections json ms acks) :
  (forall pre m post outs e,
      ms = pre ++ m :: post ->
      comprehension __metering_decomposition pre = Ok outs ->
      __metering_decomposition m = Raise e ->
      parse_metering_poll_response json = Raise e)
  /\ (forall outs pre a post aouts e,
         comprehension __metering_decomposition ms = Ok outs ->
         acks = pre ++ a :: post ->
         comprehension __acknowledgement_decomposition pre = Ok aouts ->
         __acknowledgement_decomposition a = Raise e ->
         parse_metering_poll_response json = Raise e).
Proof.
  rewrite (parse_on_collections _ _ _ Hresp). split.
  - intros pre m post outs e -> Hpre Hm.
    rewrite (comprehension_Raise _ _ _ _ _ _ Hpre Hm). reflexivity.
  - intros outs pre a post aouts e Hms -> Hpre Ha.
    rewrite Hms; cbn [bind].
    rewrite (comprehension_Raise _ _ _ _ _ _ Hpre Ha). reflexivity.
Qed.

(** X6. A [ResultDataSet] that holds something, but neither an
    [Acknowledgement] nor a [NotifyValidatedDataForBillingEnergy], is not
    a case of missing data: the parse returns the result with two empty
    sequences. *)
Theorem no_records_gives_empty_sequences
  (json : pyval) (pitems items : list (string * pyval))
  (Hpath : path json ["Envelope"; "Body"; "PollForDataResponse"] = Ok (PDict pitems))
  (Hrds : lookup "ResultDataSet" pitems = Some (PDict items))
  (Hitems : items <> [])
  (Hack : lookup "Acknowledgement" items = None)
  (Hmet : lookup "NotifyValidatedDataForBillingEnergy" items = None) :
  parse_metering_poll_response json = Ok (parse_result [] []).
Proof.
  assert (Ht : truthy (PDict items) = true)
    by (destruct items; [contradiction | reflexivity]).
  unfold parse_metering_poll_response, collection.
  rewrite Hpath; cbn [bind get_default]. rewrite Hrds; cbn [bind].
  rewrite Ht; cbn [negb get_default].
  rewrite Hack, Hmet. reflexivity.
Qed.

(** X7. A [ResultDataSet] that holds something and is not a mapping -- the
    element has only text, or it occurs more than once, which makes it a
    sequence -- is not looked into: the parse raises [AttributeError]. *)
Theorem result_data_set_must_be_mapping
  (json : pyval) (pitems : list (string * pyval)) (rds : pyval)
  (Hpath : path json ["Envelope"; "Body"; "PollForDataResponse"] = Ok (PDict pitems))
  (Hrds : lookup "ResultDataSet" pitems = Some rds)
  (Htruthy : truthy rds = true)
  (Hshape : isinstance_dict rds = false) :
  parse_metering_poll_response json = Raise AttributeError.
Proof.
  unfold parse_metering_poll_response, collection.
  rewrite Hpath; cbn [bind get_default]. rewrite Hrds; cbn [bind].
  rewrite Htruthy; cbn [negb].
  destruct rds; try discriminate; reflexivity.
Qed.

(** X8. A collection of the [ResultDataSet] that is there as one empty
    element is [None] in the tree; it is neither wrapped nor skipped,
    and the loop over it raises [TypeError].  For the meterings this
    happens whatever the acknowledgements are; for the acknowledgements
    it happens once all meterings are decomposed. *)
Theorem empty_collection_element_fails
  (json : pyval) (pitems items : list (string * pyval))
  (Hpath : path json ["Envelope"; "Body"; "PollForDataResponse"] = Ok (PDict pitems))
  (Hrds : lookup "ResultDataSet" pitems = Some (PDict items)) :
  (lookup "NotifyValidatedDataForBillingEnergy" items = Some PNone ->
   parse_metering_poll_response json = Raise TypeError)
  /\ (forall ms outs,
         lookup "Acknowledgement" items = Some PNone ->
         collection (PDict items) "NotifyValidatedDataForBillingEnergy"
         = Ok (PList ms) ->
         comprehension __metering_decomposition ms = Ok outs ->
         parse_metering_poll_response json = Raise TypeError).
Proof.
  assert (Hne : forall k v, lookup k items = Some v -> truthy (PDict items) = true).
  { intros k v H. destruct items; [discriminate H | reflexivity]. }
  unfold parse_metering_poll_response.
  rewrite Hpath; cbn [bind get_default]. rewrite Hrds; cbn [bind].
  split.
  - intros Hm. rewrite (Hne _ _ Hm); cbn [negb].
    unfold collection. cbn [get_default]. rewrite Hm.
    destruct (lookup "Acknowledgement" items); reflexivity.
  - intros ms outs Ha Hm Hms. rewrite (Hne _ _ Ha); cbn [negb].
    rewrite Hm. unfold collection. cbn [get_default]. rewrite Ha.
    cbn [bind isinstance_dict iter]. rewrite Hms. reflexivity.
Qed.

(** ** The items of a series *)

Lemma observation_entry_dict dt items :
  observation_entry dt (PDict items)
  = (t <- observation_timestamp dt (PDict items) ;;
     match item_value items with
     | Some v => Ok (observation t v)
     | None =>
         match items with
         | _ :: _ :: _ => Raise AttributeError
         | _ => Raise IndexError
         end
     end).
Proof.
  unfold observation_entry, item_value. cbn [get get_default].
  destruct (lookup "Metered" items) as [m|] eqn:Hm; cbn [bind].
  - destruct (truthy m) eqn:Ht.
    + destruct (observation_timestamp dt (PDict items)); cbn [bind]; [ | reflexivity].
      try rewrite Hm. reflexivity.
    + destruct (observation_timestamp dt (PDict items)); cbn [bind]; [ | reflexivity].
      unfold second_entry_text, index.
      destruct items as [|kv0 [|[k1 [|s1|child|l1]] rest]]; try reflexivity.
      cbn. destruct (lookup "#text" child); reflexivity.
  - cbn [truthy].
    destruct (observation_timestamp dt (PDict items)); cbn [bind]; [ | reflexivity].
    unfold second_entry_text, index.
    destruct items as [|kv0 [|[k1 [|s1|child|l1]] rest]]; try reflexivity.
    cbn. destruct (lookup "#text" child); reflexivity.
Qed.

Lemma observation_timestamp_cases dt e k :
  valid dt = true ->
  sequence_index e = Ok k ->
  (representable (wall_seconds dt + 3600 * k)
   /\ exists dt',
       observation_timestamp dt e = Ok (PStr (isoformat dt'))
       /\ valid dt' = true
       /\ wall_seconds dt' = wall_seconds dt + 3600 * k
       /\ utcoffset dt' = utcoffset dt)
  \/ (~ representable (wall_seconds dt + 3600 * k)
      /\ observation_timestamp dt e = Raise OverflowError).
Proof.
  intros Hv Hk. rewrite observation_timestamp_index, Hk; cbn [bind].
  destruct (add_hours_cases dt k Hv) as [(Hr & dt' & Ha & H) | (Hr & Ha)].
  - left. split; [exact Hr | ]. exists dt'. split; [ | exact H].
    destruct (timedelta_hours k); cbn [bind] in Ha |- *; [ | discriminate].
    rewrite Ha. reflexivity.
  - right. split; [exact Hr | ].
    destruct (timedelta_hours k); cbn [bind] in Ha |- *; [ | congruence].
    rewrite Ha. reflexivity.
Qed.

(** X10. A sequence index that takes the start time out of the years 1 to
    9999 raises [OverflowError]; every other integer index, negative ones
    too, gives a timestamp. *)
Theorem sequence_index_out_of_calendar
  (dt : datetime) (items : list (string * pyval)) (k : Z)
  (Hvalid : valid dt = true)
  (Hindex : sequence_index (PDict items) = Ok k) :
  (~ representable (wall_seconds dt + 3600 * k) ->
   observation_entry dt (PDict items) = Raise OverflowError)
  /\ (representable (wall_seconds dt + 3600 * k) ->
      exists t, observation_timestamp dt (PDict items) = Ok t).
Proof.
  destruct (observation_timestamp_cases dt _ k Hvalid Hindex)
    as [(Hr & dt' & Ht & _) | (Hr & Ht)]; split; intros H;
    try contradiction.
  - eauto.
  - rewrite observation_entry_dict, Ht. reflexivity.
Qed.


(** ** What a decomposed series holds *)

Lemma observation_entry_Ok dt e x :
  valid dt = true ->
  observation_entry dt e = Ok x ->
  exists items k dt' v,
    e = PDict items
    /\ sequence_index e = Ok k
    /\ valid dt' = true
    /\ wall_seconds dt' = wall_seconds dt + 3600 * k
    /\ utcoffset dt' = utcoffset dt
    /\ item_value items = Some v
    /\ x = observation (PStr (isoformat dt')) v.
Proof.
  intros Hv H.
  destruct e as [|s|items|l]; try discriminate.
  rewrite observation_entry_dict in H.
  apply bind_Ok in H as (t & Ht & H).
  destruct (item_value items) as [v|] eqn:Hval;
    [ | destruct items as [|? [|? ?]]; discriminate].
  injection H as <-.
  destruct (sequence_index (PDict items)) as [k|err] eqn:Hk.
  - destruct (observation_timestamp_cases dt _ k Hv Hk)
      as [(Hr & dt' & Ht' & H) | (Hr & Ht')]; [ | congruence].
    rewrite Ht' in Ht. injection Ht as <-.
    exists items, k, dt', v. tauto.
  - rewrite observation_timestamp_index, Hk in Ht. discriminate.
Qed.

Lemma iter_series dt o l :
  truthy o = true ->
  (es <- iter o ;; comprehension (observation_entry dt) es) = Ok l ->
  exists es, o = PList es /\ es <> [] /\ comprehension (observation_entry dt) es = Ok l.
Proof.
  intros Ht H. destruct o as [|s|items|es]; try discriminate.
  - destruct s as [|c s]; [discriminate | ]. discriminate.
  - destruct items as [|[k v] items]; discriminate.
  - exists es. destruct es; [discriminate | ].
    repeat split; [discriminate | exact H].
Qed.

(** The time-series branch, read backwards. *)
Lemma series_entries md out o :
  __metering_decomposition md = Ok out ->
  path md ["PayloadEnergyTimeSeries"; "Observation"] = Ok o ->
  truthy o = true ->
  exists fields es st dt l,
    metering_fields md = Ok fields
    /\ o = PList es
    /\ es <> []
    /\ get (PDict fields) "start_time" = Ok st
    /\ strptime st = Ok dt
    /\ comprehension (observation_entry dt) es = Ok l
    /\ out = with_observations fields (PList l).
Proof.
  intros Hout Hobs Htruthy.
  unfold __metering_decomposition in Hout.
  apply bind_Ok in Hout as (fields & Hf & H).
  rewrite Hobs in H; cbn [bind] in H. rewrite Htruthy in H.
  apply bind_Ok in H as (st & Hst & H).
  apply bind_Ok in H as (dt & Hdt & H).
  destruct (es <- iter o ;; comprehension (observation_entry dt) es) as [l|e] eqn:Hl.
  - destruct (iter_series dt o l Htruthy Hl) as (es & -> & Hne & Hes).
    cbn [iter bind] in H. rewrite Hes in H; cbn [bind] in H.
    injection H as <-.
    exists fields, es, st, dt, l. repeat split; try assumption.
    destruct (metering_fields_Ok _ _ Hf) as (mp & ts0 & ident & ebp & st0 & H).
    destruct H as (et & res & unit & -> & _). reflexivity.
  - exfalso. destruct (iter o) as [es|e']; cbn [bind] in Hl, H.
    + rewrite Hl in H. discriminate.
    + discriminate.
Qed.

(** X12. When a record with an [Observation] is decomposed, the
    [Observation] was a sequence -- a single mapping or a text never gets
    through -- and the record holds its fixed fields followed by a
    sequence of observations, one for each item and in the order of the
    items.  The timestamp of each is the ISO form of the valid datetime
    that is the parsed start time moved by as many hours as the
    [Sequence] attribute of its item says, with the offset of the start
    time; its value is the [Metered] field of the item, or the [#text] of
    the item's second item.  This is so whether or not the record has a
    [ProfiledObservation] too. *)
Theorem decomposed_series
  (md out o : pyval)
  (Hout : __metering_decomposition md = Ok out)
  (Hobs : path md ["PayloadEnergyTimeSeries"; "Observation"] = Ok o)
  (Htruthy : truthy o = true) :
  exists fields es st dt l,
    metering_fields md = Ok fields
    /\ o = PList es
    /\ get (PDict fields) "start_time" = Ok st
    /\ strptime st = Ok dt
    /\ out = with_observations fields (PList l)
    /\ Forall2 (fun e x =>
                  exists items k dt' v,
                    e = PDict items
                    /\ sequence_index e = Ok k
                    /\ valid dt' = true
                    /\ wall_seconds dt' = wall_seconds dt + 3600 * k
                    /\ utcoffset dt' = utcoffset dt
                    /\ item_value items = Some v
                    /\ x = observation (PStr (isoformat dt')) v) es l.
Proof.
  destruct (series_entries md out o Hout Hobs Htruthy)
    as (fields & es & st & dt & l & Hf & Ho & _ & Hst & Hdt & Hes & Hl).
  exists fields, es, st, dt, l. repeat split; try assumption.
  apply comprehension_Ok in Hes.
  pose proof (strptime_valid _ _ Hdt) as Hv.
  clear - Hes Hv. induction Hes; constructor; [ | assumption].
  eapply observation_entry_Ok; eassumption.
Qed.


(** ** The shape of the result *)

Lemma metering_fields_keys md fields :
  metering_fields md = Ok fields -> map fst fields = map fst METERING_PATHS.
Proof.
  intros Hf.
  destruct (metering_fields_Ok _ _ Hf) as (mp & ts0 & ident & ebp & st0 & H).
  destruct H as (et & res & unit & -> & _). reflexivity.
Qed.

Lemma metering_decomposition_shape md out :
  __metering_decomposition md = Ok out -> out = PNone \/ is_metering_record out.
Proof.
  intros Hout. pose proof Hout as H. unfold __metering_decomposition in H.
  apply bind_Ok in H as (fields & Hf & H).
  apply bind_Ok in H as (o & Ho & H).
  destruct (truthy o) eqn:Hto.
  - right.
    destruct (series_entries md out o Hout Ho Hto)
      as (fields' & es & st & dt & l & Hf' & -> & Hne & _ & Hdt & Hes & ->).
    exists fields', (PList l). split; [reflexivity | ].
    split; [eapply metering_fields_keys, Hf' | ].
    right. exists l. split; [reflexivity | ].
    apply comprehension_Ok in Hes.
    pose proof (strptime_valid _ _ Hdt) as Hv. split.
    + destruct es; [contradiction | ]. inversion Hes. discriminate.
    + clear - Hes Hv. induction Hes as [|e x es l Hx _ IH];
        constructor; [ | exact IH].
      destruct (observation_entry_Ok _ _ _ Hv Hx) as (items & k & dt' & v & H).
      exists (isoformat dt'), v. tauto.
  - apply bind_Ok in H as (p & Hp & H).
    destruct (truthy p); [ | left; congruence].
    right.
    apply bind_Ok in H as (st & Hst & H).
    apply bind_Ok in H as (dt & Hdt & H).
    apply bind_Ok in H as (p' & Hp' & H).
    apply bind_Ok in H as (v & Hv & H).
    injection H as <-.
    exists fields, (observation (PStr (isoformat dt)) v).
    split; [ | split; [eapply metering_fields_keys, Hf | left; eexists; eexists; reflexivity]].
    destruct (metering_fields_Ok _ _ Hf) as (mp & ts0 & ident & ebp & st0 & H).
    destruct H as (et & res & unit & -> & _). reflexivity.
Qed.

Lemma acknowledgement_decomposition_shape a x :
  __acknowledgement_decomposition a = Ok x -> is_acknowledgement_record x.
Proof.
  unfold __acknowledgement_decomposition. intros H.
  repeat (apply bind_Ok in H as (? & _ & H)).
  injection H as <-. eexists. split; reflexivity.
Qed.

(** X15. Whenever the parse returns, the result is a mapping with the two
    keys [meterings] and [acknowledgements], each a sequence.  Every
    entry of [meterings] is [None] or a record with the eight fixed
    fields followed by [observations], which is one timestamp-value
    mapping or a sequence of them that is not empty; every entry of
    [acknowledgements] is a record with the six fields.  Every timestamp
    of an observation is a text. *)
Theorem result_shape (json r : pyval)
  (Hparse : parse_metering_poll_response json = Ok r) :
  exists outs aouts,
    r = parse_result outs aouts
    /\ Forall (fun x => x = PNone \/ is_metering_record x) outs
    /\ Forall is_acknowledgement_record aouts.
Proof.
  unfold parse_metering_poll_response in Hparse.
  apply bind_Ok in Hparse as (p & _ & H).
  apply bind_Ok in H as (rds & _ & H).
  destruct (negb (truthy rds)); [discriminate | ].
  apply bind_Ok in H as (a & _ & H).
  apply bind_Ok in H as (m & _ & H).
  apply bind_Ok in H as (ms & _ & H).
  apply bind_Ok in H as (outs & Houts & H).
  apply bind_Ok in H as (acks & _ & H).
  apply bind_Ok in H as (aouts & Haouts & H).
  injection H as <-. exists outs, aouts. split; [reflexivity | ].
  apply comprehension_Ok in Houts, Haouts. split.
  - clear - Houts. induction Houts; constructor; [ | assumption].
    eapply metering_decomposition_shape; eassumption.
  - clear - Haouts. induction Haouts; constructor; [ | assumption].
    eapply acknowledgement_decomposition_shape; eassumption.
Qed.

(** ** Missing elements of a record *)

Lemma path_through_leaf x child c rest k :
  get x child = Ok c -> isinstance_dict c = false ->
  path x (child :: k :: rest) = Raise AttributeError.
Proof.
  intros Hc Hd. rewrite !path_cons, Hc; cbn [bind].
  destruct c; try discriminate; reflexivity.
Qed.

(** X16. The fixed fields are read before the readings are looked for:
    a metering record in which [PayloadEnergyTimeSeries], [Header] or
    [ProcessEnergyContext] is missing, empty or a bare text raises
    [AttributeError], also when it has no reading at all, and the parse
    of a response that holds it fails. *)
Theorem record_needs_its_children
  (md c : pyval) (child : string)
  (Hchild : In child REQUIRED_CHILDREN)
  (Hget : get md child = Ok c)
  (Hshape : isinstance_dict c = false) :
  __metering_decomposition md = Raise AttributeError
  /\ forall json ms acks,
      response_collections json ms acks -> In md ms ->
      exists e, parse_metering_poll_response json = Raise e.
Proof.
  assert (H : __metering_decomposition md = Raise AttributeError).
  { unfold __metering_decomposition.
    destruct (metering_fields md) as [fields|e] eqn:Hf;
      [ | apply metering_fields_Raise in Hf; subst e; reflexivity].
    exfalso. pose proof (metering_fields_reads _ _ Hf) as Hr.
    unfold reads, METERING_PATHS in Hr.
    repeat match goal with
           | H : Forall2 _ (_ :: _) _ |- _ => inversion H; clear H; subst
           end.
    cbn [fst snd] in *.
    destruct Hchild as [<- | [<- | [<- | []]]];
      repeat match goal with
             | H : _ /\ _ |- _ => destruct H
             end;
      match goal with
      | H : path md (?k :: _ :: _) = Ok _ |- _ =>
          match type of Hget with
          | get md k = _ => rewrite (path_through_leaf _ _ _ _ _ Hget Hshape) in H;
                            discriminate H
          end
      end. }
  split; [exact H | ].
  intros json ms acks Hresp Hin.
  rewrite (parse_on_collections _ _ _ Hresp).
  destruct (comprehension_fails _ _ _ _ Hin H) as (e' & ->). simpl. eauto.
Qed.

(** X17. A missing last key is not an error.  An acknowledgement whose
    [Header] is a mapping without [Creation] is decomposed like any
    other, with [None] as its [timestamp]; nothing is raised for it. *)
Theorem missing_creation_is_none
  (a : pyval) (header : list (string * pyval)) (x : pyval)
  (Hheader : get a "Header" = Ok (PDict header))
  (Hcreation : lookup "Creation" header = None) :
  path a ["Header"; "Creation"] = Ok PNone
  /\ (__acknowledgement_decomposition a = Ok x -> path x ["timestamp"] = Ok PNone)
  /\ (forall ident ebp st rrt ref,
         path a ["Header"; "Identification"] = Ok ident ->
         path a ["ProcessEnergyContext"; "EnergyBusinessProcess"; "#text"] = Ok ebp ->
         path a ["PayloadResponseEvent"; "StatusType"; "#text"] = Ok st ->
         path a ["PayloadResponseEvent"; "ResponseReasonType"; "#text"] = Ok rrt ->
         path a ["PayloadResponseEvent"; "OriginalBusinessDocumentReference"] = Ok ref ->
         __acknowledgement_decomposition a
         = Ok (PDict [("timestamp", PNone);
                      ("identification", ident);
                      ("energy_business_process", ebp);
                      ("status_type", st);
                      ("response_reason_type", rrt);
                      ("original_business_document_reference", ref)])).
Proof.
  assert (Hp : path a ["Header"; "Creation"] = Ok PNone).
  { rewrite path_cons, Hheader; cbn [bind]. rewrite path_cons.
    cbn [get get_default]. rewrite Hcreation. reflexivity. }
  split; [exact Hp | ]. unfold __acknowledgement_decomposition. rewrite Hp; cbn [bind].
  split.
  - intros H. repeat (apply bind_Ok in H as (? & _ & H)).
    injection H as <-. reflexivity.
  - intros ident ebp st rrt ref -> -> -> -> ->. reflexivity.
Qed.

(** ** The further theorems at the sample responses *)

Lemma sample_poll_failing_collections :
  response_collections sample_poll_failing [sample_series; sample_single_item]
    [sample_acknowledgement].
Proof.
  eexists; eexists.
  split; [reflexivity | ]. split; [reflexivity | ]. split; [reflexivity | ].
  split; reflexivity.
Defined.

Lemma parse_exceptions_witness :
  AttributeError = NO_DATA \/ runtime_error AttributeError.
Proof.
  apply (parse_exceptions sample_poll_failing AttributeError).
  vm_compute. reflexivity.
Defined.

Lemma first_failure_decides_witness :
  parse_metering_poll_response sample_poll_failing = Raise AttributeError.
Proof.
  apply (proj1 (first_failure_decides sample_poll_failing
                  [sample_series; sample_single_item] [sample_acknowledgement]
                  sample_poll_failing_collections)
           [sample_series] sample_single_item []
           [with_observations (sample_fields "2023-01-01T00:00:00+01:00")
              (PList (observations_of sample_timestamps sample_values))]).
  - reflexivity.
  - vm_compute. reflexivity.
  - vm_compute. reflexivity.
Defined.

Lemma no_records_gives_empty_sequences_witness :
  parse_metering_poll_response
    (sample_response (PDict [("@xmlns", PStr "urn:elhub")]))
  = Ok (parse_result [] []).
Proof.
  apply (no_records_gives_empty_sequences
           (sample_response (PDict [("@xmlns", PStr "urn:elhub")]))
           [("ResultDataSet", PDict [("@xmlns", PStr "urn:elhub")])]
           [("@xmlns", PStr "urn:elhub")]).
  - reflexivity.
  - reflexivity.
  - discriminate.
  - reflexivity.
  - reflexivity.
Defined.

Lemma result_data_set_must_be_mapping_witness :
  parse_metering_poll_response
    (sample_response (PList [PDict [("Acknowledgement", sample_acknowledgement)];
                             PDict [("Acknowledgement", sample_acknowledgement)]]))
  = Raise AttributeError.
Proof.
  apply (result_data_set_must_be_mapping
           (sample_response
              (PList [PDict [("Acknowledgement", sample_acknowledgement)];
                      PDict [("Acknowledgement", sample_acknowledgement)]]))
           [("ResultDataSet",
             PList [PDict [("Acknowledgement", sample_acknowledgement)];
                    PDict [("Acknowledgement", sample_acknowledgement)]])]
           (PList [PDict [("Acknowledgement", sample_acknowledgement)];
                   PDict [("Acknowledgement", sample_acknowledgement)]])).
  - reflexivity.
  - reflexivity.
  - reflexivity.
  - reflexivity.
Defined.

Lemma empty_collection_element_fails_witness :
  parse_metering_poll_response
    (sample_response (PDict [("NotifyValidatedDataForBillingEnergy", PNone)]))
  = Raise TypeError.
Proof.
  apply (proj1 (empty_collection_element_fails
                  (sample_response
                     (PDict [("NotifyValidatedDataForBillingEnergy", PNone)]))
                  [("ResultDataSet",
                    PDict [("NotifyValidatedDataForBillingEnergy", PNone)])]
                  [("NotifyValidatedDataForBillingEnergy", PNone)]
                  eq_refl eq_refl)).
  reflexivity.
Defined.

Lemma sequence_index_out_of_calendar_witness :
  observation_entry sample_start
    (PDict [("@Sequence", PStr "99999999"); ("Metered", PStr "1.250")])
  = Raise OverflowError.
Proof.
  apply (proj1 (sequence_index_out_of_calendar sample_start
                  [("@Sequence", PStr "99999999"); ("Metered", PStr "1.250")]
                  99999999 eq_refl eq_refl)).
  unfold representable. vm_compute. intros [_ H]. discriminate H.
Defined.


Lemma decomposed_series_witness :
  exists fields es st dt l,
    metering_fields sample_series = Ok fields
    /\ PList sample_items = PList es
    /\ get (PDict fields) "start_time" = Ok st
    /\ strptime st = Ok dt
    /\ with_observations (sample_fields "2023-01-01T00:00:00+01:00")
         (PList (observations_of sample_timestamps sample_values))
       = with_observations fields (PList l)
    /\ Forall2 (fun e x =>
                  exists items k dt' v,
                    e = PDict items
                    /\ sequence_index e = Ok k
                    /\ valid dt' = true
                    /\ wall_seconds dt' = wall_seconds dt + 3600 * k
                    /\ utcoffset dt' = utcoffset dt
                    /\ item_value items = Some v
                    /\ x = observation (PStr (isoformat dt')) v) es l.
Proof.
  apply (decomposed_series sample_series
           (with_observations (sample_fields "2023-01-01T00:00:00+01:00")
              (PList (observations_of sample_timestamps sample_values)))
           (PList sample_items)).
  - vm_compute. reflexivity.
  - reflexivity.
  - reflexivity.
Defined.


Lemma result_shape_witness :
  exists outs aouts,
    parse_result
      [with_observations (sample_fields "2023-01-01T00:00:00+01:00")
         (PList (observations_of sample_timestamps sample_values));
       PNone]
      [PDict [("timestamp", PStr "2023-01-02T06:15:00Z");
              ("identification", PStr "0c7d3e91");
              ("energy_business_process", PStr "BRS-NO-312");
              ("status_type", PStr "39");
              ("response_reason_type", PStr "A01");
              ("original_business_document_reference", PStr "b5a1f0d2")]]
    = parse_result outs aouts
    /\ Forall (fun x => x = PNone \/ is_metering_record x) outs
    /\ Forall is_acknowledgement_record aouts.
Proof.
  apply (result_shape sample_poll).
  vm_compute. reflexivity.
Defined.

Lemma record_needs_its_children_witness :
  __metering_decomposition sample_headless = Raise AttributeError
  /\ forall json ms acks,
      response_collections json ms acks -> In sample_headless ms ->
      exists e, parse_metering_poll_response json = Raise e.
Proof.
  apply (record_needs_its_children sample_headless PNone "Header").
  - right. left. reflexivity.
  - reflexivity.
  - reflexivity.
Defined.

Lemma missing_creation_is_none_witness :
  path sample_acknowledgement_undated ["Header"; "Creation"] = Ok PNone
  /\ (__acknowledgement_decomposition sample_acknowledgement_undated
      = Ok (PDict [("timestamp", PNone);
                   ("identification", PStr "0c7d3e91");
                   ("energy_business_process", PStr "BRS-NO-312");
                   ("status_type", PStr "39");
                   ("response_reason_type", PStr "A01");
                   ("original_business_document_reference", PStr "b5a1f0d2")]) ->
      path (PDict [("timestamp", PNone);
                   ("identification", PStr "0c7d3e91");
                   ("energy_business_process", PStr "BRS-NO-312");
                   ("status_type", PStr "39");
                   ("response_reason_type", PStr "A01");
                   ("original_business_document_reference", PStr "b5a1f0d2")])
        ["timestamp"] = Ok PNone)
  /\ (forall ident ebp st rrt ref,
         path sample_acknowledgement_undated ["Header"; "Identification"] = Ok ident ->
         path sample_acknowledgement_undated
           ["ProcessEnergyContext"; "EnergyBusinessProcess"; "#text"] = Ok ebp ->
         path sample_acknowledgement_undated
           ["PayloadResponseEvent"; "StatusType"; "#text"] = Ok st ->
         path sample_acknowledgement_undated
           ["PayloadResponseEvent"; "ResponseReasonType"; "#text"] = Ok rrt ->
         path sample_acknowledgement_undated
           ["PayloadResponseEvent"; "OriginalBusinessDocumentReference"] = Ok ref ->
         __acknowledgement_decomposition sample_acknowledgement_undated
         = Ok (PDict [("timestamp", PNone);
                      ("identification", ident);
                      ("energy_business_process", ebp);
                      ("status_type", st);
                      ("response_reason_type", rrt);
                      ("original_business_document_reference", ref)])).
Proof.
  apply (missing_creation_is_none sample_acknowledgement_undated
           [("Identification", PStr "0c7d3e91")]).
  - reflexivity.
  - reflexivity.
Defined.

(** * The envelope and the acknowledgements, case by case *)

(** ** The collections of a [ResultDataSet] *)



(** ** The empty response *)

Lemma present_not_mapping keys : forall x p k,
  path x keys = Ok p -> isinstance_dict p = false ->
  present x (keys ++ [k]) = false.
Proof.
  induction keys as [|k0 keys IH]; intros x p k Hp Hd.
  - rewrite path_nil in Hp. injection Hp as ->.
    destruct p; try discriminate; reflexivity.
  - rewrite path_cons in Hp. cbn [app present].
    destruct x as [|s|items|l]; try reflexivity.
    cbn [get get_default] in Hp.
    destruct (lookup k0 items) as [v|]; [ | reflexivity].
    cbn [bind] in Hp. eapply IH; eassumption.
Qed.

(** C3, as the code has it.  When the path
    [Envelope.Body.PollForDataResponse] is present, it leads to a value
    [p].  If [p] is a mapping that has no [ResultDataSet], or an empty
    one, the parse raises [Exception("No Data found in the response")] and
    returns no result.  If [p] is no mapping -- an empty element or a
    text -- the [ResultDataSet] is absent too, but the parse raises
    [AttributeError], which is not that exception. *)
Theorem no_data_error
  (json : pyval)
  (Hpath : present json ["Envelope"; "Body"; "PollForDataResponse"] = true) :
  exists p,
    path json ["Envelope"; "Body"; "PollForDataResponse"] = Ok p
    /\ (forall pitems,
           p = PDict pitems ->
           lookup "ResultDataSet" pitems = None
           \/ (exists v, lookup "ResultDataSet" pitems = Some v /\ truthy v = false) ->
           parse_metering_poll_response json = Raise NO_DATA
           /\ forall r, parse_metering_poll_response json <> Ok r)
    /\ (isinstance_dict p = false ->
        present json ["Envelope"; "Body"; "PollForDataResponse"; "ResultDataSet"]
        = false
        /\ parse_metering_poll_response json = Raise AttributeError
        /\ AttributeError <> NO_DATA
        /\ forall r, parse_metering_poll_response json <> Ok r).
Proof.
  destruct (present_true _ _ Hpath) as (p & Hp).
  exists p. split; [exact Hp | ]. split.
  - intros pitems -> Hrds.
    assert (H : parse_metering_poll_response json = Raise NO_DATA).
    { unfold parse_metering_poll_response. rewrite Hp; simpl.
      destruct Hrds as [-> | (v & -> & Hv)]; simpl; [ | rewrite Hv]; reflexivity. }
    split; [exact H | intros r; rewrite H; discriminate].
  - intros Hd.
    assert (H : parse_metering_poll_response json = Raise AttributeError).
    { unfold parse_metering_poll_response. rewrite Hp; cbn [bind].
      destruct p; try discriminate; reflexivity. }
    split; [ | split; [exact H | split; [discriminate | ]]].
    + apply (present_not_mapping ["Envelope"; "Body"; "PollForDataResponse"] _ p);
        assumption.
    + intros r. rewrite H. discriminate.
Qed.

(** The claim C3 as the specification words it does not hold: with
    [PollForDataResponse] an empty element the path is present and there
    is no [ResultDataSet], and the parse raises [AttributeError]. *)
Lemma empty_poll_element_is_not_no_data :
  present sample_empty_poll_element ["Envelope"; "Body"; "PollForDataResponse"]
  = true
  /\ present sample_empty_poll_element
       ["Envelope"; "Body"; "PollForDataResponse"; "ResultDataSet"] = false
  /\ parse_metering_poll_response sample_empty_poll_element = Raise AttributeError
  /\ parse_metering_poll_response sample_empty_poll_element <> Raise NO_DATA.
Proof.
  split; [reflexivity | ]. split; [reflexivity | ]. split; [reflexivity | ].
  discriminate.
Qed.

(** ** The acknowledgement record *)

Lemma mapping_at_path keys : forall x items k,
  mapping_at x keys = Some items ->
  path x (keys ++ [k]) = Ok (entry items k).
Proof.
  induction keys as [|k0 keys IH]; intros x items k H;
    destruct x as [|s|xitems|l]; try discriminate; cbn [mapping_at] in H.
  - injection H as ->. cbn [app]. rewrite path_cons. unfold entry.
    cbn [get get_default]. destruct (lookup k items); reflexivity.
  - cbn [app]. rewrite path_cons. cbn [get get_default].
    destruct (lookup k0 xitems) as [v|]; [ | discriminate].
    cbn [bind]. apply IH, H.
Qed.

Lemma mapping_at_None keys : forall x k rest,
  mapping_at x keys = None ->
  path x (keys ++ k :: rest) = Raise AttributeError.
Proof.
  induction keys as [|k0 keys IH]; intros x k rest H;
    destruct x as [|s|xitems|l]; try discriminate; try reflexivity;
    cbn [mapping_at] in H.
  cbn [app]. rewrite path_cons. cbn [get get_default].
  destruct (lookup k0 xitems) as [v|]; cbn [bind].
  - apply IH, H.
  - destruct keys; reflexivity.
Qed.

Lemma mapping_at_Some keys : forall x k rest v,
  path x (keys ++ k :: rest) = Ok v -> exists items, mapping_at x keys = Some items.
Proof.
  intros x k rest v H.
  destruct (mapping_at x keys) as [items|] eqn:Hm; [eauto | ].
  rewrite (mapping_at_None _ _ _ _ Hm) in H. discriminate.
Qed.

Ltac read_in H k :=
  let E := fresh "E" in
  pose proof (mapping_at_path _ _ _ k H) as E; cbn [app] in E; rewrite E; clear E.

(** C9, as the code has it.  [__acknowledgement_decomposition] is a
    straight line of lookups in five nodes of the acknowledgement:
    [Header], [EnergyBusinessProcess] under [ProcessEnergyContext],
    [PayloadResponseEvent], and [StatusType] and [ResponseReasonType]
    under it.  When the five are there and are mappings, it returns the
    record of the six fields, in this order: [Creation] and
    [Identification] of the header, the [#text] of the business process,
    of the status and of the reason, and
    [OriginalBusinessDocumentReference] of the event as the value found
    there, whatever its structure; a leaf that is missing in its node
    gives [None] for its field and no failure.  When one of the five nodes
    is missing or is no mapping, it raises [AttributeError].  It returns
    nothing but such a record of six fields. *)
Theorem acknowledgement_full_record_or_failure (a : pyval) :
  (forall header process event status reason,
      mapping_at a ["Header"] = Some header ->
      mapping_at a ["ProcessEnergyContext"; "EnergyBusinessProcess"] = Some process ->
      mapping_at a ["PayloadResponseEvent"] = Some event ->
      mapping_at a ["PayloadResponseEvent"; "StatusType"] = Some status ->
      mapping_at a ["PayloadResponseEvent"; "ResponseReasonType"] = Some reason ->
      __acknowledgement_decomposition a
      = Ok (PDict [("timestamp", entry header "Creation");
                   ("identification", entry header "Identification");
                   ("energy_business_process", entry process "#text");
                   ("status_type", entry status "#text");
                   ("response_reason_type", entry reason "#text");
                   ("original_business_document_reference",
                    entry event "OriginalBusinessDocumentReference")]))
  /\ ((exists node, In node ACK_NODES /\ mapping_at a node = None) ->
      __acknowledgement_decomposition a = Raise AttributeError)
  /\ (forall x,
         __acknowledgement_decomposition a = Ok x ->
         is_acknowledgement_record x
         /\ forall node, In node ACK_NODES -> exists items, mapping_at a node = Some items).
Proof.
  assert (Hok : forall x,
             __acknowledgement_decomposition a = Ok x ->
             forall node, In node ACK_NODES -> exists items, mapping_at a node = Some items).
  { intros x H. unfold __acknowledgement_decomposition in H.
    apply bind_Ok in H as (v1 & H1 & H).
    apply bind_Ok in H as (v2 & H2 & H).
    apply bind_Ok in H as (v3 & H3 & H).
    apply bind_Ok in H as (v4 & H4 & H).
    apply bind_Ok in H as (v5 & H5 & H).
    apply bind_Ok in H as (v6 & H6 & H).
    intros node Hn. unfold ACK_NODES in Hn. cbn [In] in Hn.
    destruct Hn as [<- | [<- | [<- | [<- | [<- | []]]]]].
    - apply (mapping_at_Some ["Header"] a "Creation" [] v1 H1).
    - apply (mapping_at_Some ["ProcessEnergyContext"; "EnergyBusinessProcess"]
               a "#text" [] v3 H3).
    - apply (mapping_at_Some ["PayloadResponseEvent"] a
               "OriginalBusinessDocumentReference" [] v6 H6).
    - apply (mapping_at_Some ["PayloadResponseEvent"; "StatusType"] a "#text" [] v4 H4).
    - apply (mapping_at_Some ["PayloadResponseEvent"; "ResponseReasonType"]
               a "#text" [] v5 H5). }
  split; [ | split].
  - intros header process event status reason Hh Hp He Hs Hr.
    unfold __acknowledgement_decomposition.
    read_in Hh "Creation". read_in Hh "Identification". read_in Hp "#text".
    read_in Hs "#text". read_in Hr "#text".
    read_in He "OriginalBusinessDocumentReference".
    reflexivity.
  - intros (node & Hn & Hnone).
    destruct (__acknowledgement_decomposition a) as [x|e] eqn:H.
    + destruct (Hok x eq_refl node Hn) as (items & Hi). congruence.
    + f_equal. eapply acknowledgement_decomposition_Raise, H.
  - intros x H. split; [ | exact (Hok x H)].
    eapply acknowledgement_decomposition_shape, H.
Qed.

(** The claim C9 as the specification words it does not hold: in an
    acknowledgement that has the five nodes and none of the six leaves,
    every required path is missing, and the decomposer does not fail: it
    returns a record of six [None]. *)
Lemma missing_leaves_do_not_fail :
  Forall (fun keys => present sample_acknowledgement_bare keys = false)
    [["Header"; "Creation"];
     ["Header"; "Identification"];
     ["ProcessEnergyContext"; "EnergyBusinessProcess"; "#text"];
     ["PayloadResponseEvent"; "StatusType"; "#text"];
     ["PayloadResponseEvent"; "ResponseReasonType"; "#text"];
     ["PayloadResponseEvent"; "OriginalBusinessDocumentReference"]]
  /\ __acknowledgement_decomposition sample_acknowledgement_bare
     = Ok (PDict [("timestamp", PNone);
                  ("identification", PNone);
                  ("energy_business_process", PNone);
                  ("status_type", PNone);
                  ("response_reason_type", PNone);
                  ("original_business_document_reference", PNone)]).
Proof.
  split; [repeat constructor | reflexivity].
Qed.

(** * Timestamps and values of the observations *)

(** ** Start times with the offset written [+HHMM] *)

Lemma offset_text_hhmm_ok_all :
  forallb (fun h => forallb (fun m => offset_text_hhmm_ok false (0 + Z.of_nat h) (0 + Z.of_nat m)
                                      && offset_text_hhmm_ok true (0 + Z.of_nat h) (0 + Z.of_nat m))
                      (seq 0%nat 60%nat))
    (seq 0%nat 24%nat) = true.
Proof. vm_compute. reflexivity. Qed.

Lemma offset_text_hhmm_spec negative hh mm :
  0 <= hh <= 23 -> 0 <= mm <= 59 ->
  rx_z (offset_text_hhmm negative hh mm) = [(offset_text_hhmm negative hh mm, [])]
  /\ gmtoff_of (offset_text_hhmm negative hh mm)
     = Ok ((if negative then -1 else 1) * (hh * 3600 + mm * 60), 0).
Proof.
  intros Hh Hm.
  assert (H : offset_text_hhmm_ok negative hh mm = true).
  { pose proof offset_text_hhmm_ok_all as H.
    pose proof (Z_range_forallb
                  (fun h => forallb (fun m => offset_text_hhmm_ok false h (0 + Z.of_nat m)
                                              && offset_text_hhmm_ok true h (0 + Z.of_nat m))
                              (seq 0%nat 60%nat)) 0 24 H hh ltac:(lia)) as H1.
    cbv beta in H1.
    pose proof (Z_range_forallb
                  (fun m => offset_text_hhmm_ok false hh m && offset_text_hhmm_ok true hh m)
                  0 60 H1 mm ltac:(lia)) as H2.
    cbv beta in H2. apply andb_true_iff in H2 as [Hf Ht].
    destruct negative; assumption. }
  unfold offset_text_hhmm_ok in H.
  destruct (rx_z _) as [|[z [|c r]] [|x l]]; try discriminate.
  destruct (gmtoff_of _) as [[g f]|e]; try discriminate.
  rewrite !andb_true_iff, !Z.eqb_eq in H. destruct H as ((Hz & ->) & ->).
  destruct (list_eq_dec ascii_dec z _) as [-> | ]; [ | discriminate].
  split; reflexivity.
Qed.

(** A valid datetime is read back from its date and time of day followed
    by any text [z] of its offset that [%z] matches as a whole. *)
Lemma strptime_chars_local dt z g :
  valid dt = true ->
  rx_z z = [(z, [])] ->
  gmtoff_of z = Ok (g, 0) ->
  g * US_PER_SECOND + 0 = utcoffset dt ->
  strptime_chars (local_chars dt ++ z) = Ok dt.
Proof.
  intros Hv Hz Hg Eoff.
  destruct (valid_inv dt Hv) as (Hd & (Hh & Hmi & Hs) & Ho).
  pose proof Hd as Hd'.
  apply valid_date_inv in Hd' as (Hy & Hm & Hday). unfold MAXYEAR in Hy.
  pose proof (days_in_month_le (year dt) (month dt) Hm) as Hdim.
  assert (Hday31 : 1 <= day dt <= 31) by lia.
  unfold strptime_chars, local_chars, format_regex.
  rewrite <- !app_assoc. cbn [app].
  rewrite (then_field_single _ _ _ _ _ _ (match_Y _ _)).
  rewrite (then_field_single _ _ _ _ _ _ (match_m _ _ Hm)).
  rewrite (then_field_single _ _ _ _ _ _ (match_day _ _ Hday31)).
  rewrite (then_field_single _ _ _ _ _ _ (match_H _ _ Hh)).
  rewrite (then_field_single _ _ _ _ _ _ (match_M _ _ Hmi)).
  rewrite (match_S _ _ _ Hs).
  unfold then_. rewrite Hz. cbn [flat_map fst snd app g_Y g_m g_d g_H g_M g_S g_z].
  rewrite int_padded_4 by lia. rewrite !int_padded_2 by lia. cbn [bind].
  rewrite Hg. cbn [bind fst snd].
  rewrite Eoff, Hd, Ho.
  assert (Ht : valid_time (hour dt) (minute dt) (second dt) = true).
  { unfold valid_time. rewrite !andb_true_iff, !Z.leb_le. lia. }
  rewrite Ht. cbn [negb].
  destruct dt; reflexivity.
Qed.

Lemma offset_hours_minutes off :
  valid_offset off = true ->
  0 <= Z.abs off / US_PER_HOUR <= 23
  /\ 0 <= Z.abs off mod US_PER_HOUR / US_PER_MINUTE <= 59
  /\ (off mod US_PER_MINUTE = 0 ->
      (if off <? 0 then -1 else 1)
      * (Z.abs off / US_PER_HOUR * 3600 + Z.abs off mod US_PER_HOUR / US_PER_MINUTE * 60)
      * US_PER_SECOND + 0 = off).
Proof.
  unfold valid_offset. change MAXOFFSET with 86399999999.
  rewrite andb_true_iff, !Z.leb_le.
  change US_PER_HOUR with 3600000000; change US_PER_MINUTE with 60000000;
    change US_PER_SECOND with 1000000.
  intros Ho. repeat split; try (Z.div_mod_to_equations; lia).
  intros Hm. destruct (Z.ltb_spec off 0); Z.div_mod_to_equations; lia.
Qed.

Lemma strptime_isoformat_hhmm dt :
  valid dt = true ->
  utcoffset dt mod US_PER_MINUTE = 0 ->
  strptime (PStr (isoformat_hhmm dt)) = Ok dt.
Proof.
  intros Hv Hoff.
  destruct (valid_inv dt Hv) as (_ & _ & Ho).
  destruct (offset_hours_minutes _ Ho) as (Hoh & Hom & Eoff).
  destruct (offset_text_hhmm_spec (utcoffset dt <? 0) _ _ Hoh Hom) as (Hz & Hg).
  unfold strptime, isoformat_hhmm. rewrite list_ascii_of_string_of_list_ascii.
  eapply strptime_chars_local; eauto.
Qed.



(** ** Sequence attributes in decimal *)

Lemma digits_value_snoc c : forall l acc after v,
  is_digit c = true ->
  digits_value l acc after = Some v ->
  digits_value (l ++ [c]) acc after = Some (v * 10 + digit_value c).
Proof.
  intros l acc after v Hc. revert acc after.
  induction l as [|a l IH]; intros acc after H; cbn [app digits_value] in *.
  - destruct after; [ | discriminate]. injection H as <-. rewrite Hc. reflexivity.
  - destruct (is_digit a); [apply IH, H | ].
    destruct (Ascii.eqb a "_"); [ | discriminate].
    destruct after; [apply IH, H | discriminate].
Qed.

Lemma digits_of_spec fuel : forall n,
  0 <= n < 10 ^ Z.of_nat (S fuel) ->
  digits_value (digits_of (S fuel) n) 0 false = Some n
  /\ Forall (fun c => is_digit c = true) (digits_of (S fuel) n)
  /\ (length (digits_of (S fuel) n) <= S fuel)%nat.
Proof.
  induction fuel as [|fuel IH]; intros n Hn.
  - change (10 ^ Z.of_nat 1) with 10 in Hn.
    cbn [digits_of]. destruct (Z.ltb_spec n 10); [ | lia]. cbn [app].
    assert (Hd : 0 <= n mod 10 <= 9) by (Z.div_mod_to_equations; lia).
    destruct (digit_facts _ Hd) as (_ & _ & _ & Hv).
    cbn [digits_value]. rewrite (is_digit_digit _ Hd), Hv.
    repeat split.
    + f_equal. Z.div_mod_to_equations. lia.
    + repeat constructor. apply is_digit_digit, Hd.
    + simpl. lia.
  - assert (Hd : 0 <= n mod 10 <= 9) by (Z.div_mod_to_equations; lia).
    destruct (digit_facts _ Hd) as (_ & _ & _ & Hv).
    change (digits_of (S (S fuel)) n)
      with ((if n <? 10 then [] else digits_of (S fuel) (n / 10)) ++ [digit (n mod 10)]).
    destruct (Z.ltb_spec n 10).
    + cbn [app digits_value]. rewrite (is_digit_digit _ Hd), Hv.
      repeat split.
      * f_equal. Z.div_mod_to_equations. lia.
      * repeat constructor. apply is_digit_digit, Hd.
      * simpl. lia.
    + assert (Hn' : 0 <= n / 10 < 10 ^ Z.of_nat (S fuel)).
      { rewrite (Nat2Z.inj_succ (S fuel)), Z.pow_succ_r in Hn by lia.
        Z.div_mod_to_equations. lia. }
      destruct (IH _ Hn') as (Hval & Hall & Hlen).
      repeat split.
      * rewrite (digits_value_snoc _ _ _ _ _ (is_digit_digit _ Hd) Hval), Hv.
        f_equal. Z.div_mod_to_equations. lia.
      * apply Forall_app. split; [exact Hall | ].
        repeat constructor. apply is_digit_digit, Hd.
      * rewrite length_app. cbn [length]. lia.
Qed.

Lemma is_digit_facts c :
  is_digit c = true ->
  is_space c = false /\ Ascii.eqb c "-" = false /\ Ascii.eqb c "+" = false.
Proof.
  unfold is_digit, is_space. intros H.
  apply andb_true_iff in H as [H1 H2].
  apply Nat.leb_le in H1. apply Nat.leb_le in H2.
  repeat split.
  - apply orb_false_iff. split.
    + apply andb_false_iff. right. apply Nat.leb_gt. lia.
    + apply Nat.eqb_neq. lia.
  - apply Ascii.eqb_neq. intros ->. vm_compute in H1. lia.
  - apply Ascii.eqb_neq. intros ->. vm_compute in H1. lia.
Qed.

Lemma lstrip_id l :
  Forall (fun c => is_space c = false) l -> lstrip l = l.
Proof. intros H. destruct H as [|c l Hc _]; cbn [lstrip]; [ | rewrite Hc]; reflexivity. Qed.

Lemma strip_id l :
  Forall (fun c => is_space c = false) l -> strip l = l.
Proof.
  intros H. unfold strip. rewrite (lstrip_id _ H).
  rewrite lstrip_id by (apply Forall_rev, H). apply rev_involutive.
Qed.

Lemma filter_length_le {A} (f : A -> bool) l : (length (filter f l) <= length l)%nat.
Proof. induction l as [|a l IH]; simpl; [lia | destruct (f a); simpl; lia]. Qed.

(** [int] reads an integer back from its decimal form. *)
Lemma int_decimal k :
  Z.abs k < 2 ^ 4300 ->
  int (PStr (decimal k)) = Ok k.
Proof.
  intros Hk. unfold int, decimal. rewrite list_ascii_of_string_of_list_ascii.
  set (fuel := Z.to_nat (Z.log2 (Z.abs k))).
  assert (Hlog : 0 <= Z.log2 (Z.abs k) < 4300).
  { split; [apply Z.log2_nonneg | ].
    destruct (Z.eq_dec (Z.abs k) 0) as [-> | Hz]; [reflexivity | ].
    apply Z.log2_lt_pow2; lia. }
  assert (Hn : 0 <= Z.abs k < 10 ^ Z.of_nat (S fuel)).
  { split; [lia | ].
    destruct (Z.eq_dec (Z.abs k) 0) as [-> | Hz]; [apply Z.pow_pos_nonneg; lia | ].
    assert (Hpos : 0 < Z.abs k) by lia.
    pose proof (Z.log2_spec _ Hpos) as [_ Hlt].
    replace (Z.of_nat (S fuel)) with (Z.succ (Z.log2 (Z.abs k))) by (unfold fuel; lia).
    eapply Z.lt_le_trans; [exact Hlt | ].
    apply Z.pow_le_mono_l. lia. }
  destruct (digits_of_spec fuel _ Hn) as (Hval & Hall & Hlen).
  set (ds := digits_of (S fuel) (Z.abs k)) in *.
  assert (Hns : Forall (fun c => is_space c = false) ds).
  { eapply Forall_impl; [ | exact Hall]. intros c Hc. apply is_digit_facts, Hc. }
  assert (Hlim : (MAX_STR_DIGITS <? Z.of_nat (length (filter is_digit ds))) = false).
  { apply Z.ltb_ge. pose proof (filter_length_le is_digit ds).
    unfold MAX_STR_DIGITS. unfold fuel in Hlen. lia. }
  unfold int_of_chars.
  destruct (Z.ltb_spec k 0) as [Hneg | Hpos].
  - cbn [app]. rewrite strip_id by (constructor; [reflexivity | exact Hns]).
    cbv beta iota zeta. change (Ascii.eqb "-" "-") with true. cbv iota.
    cbn [fst snd]. rewrite Hval, Hlim. f_equal. lia.
  - cbn [app]. rewrite strip_id by exact Hns.
    destruct ds as [|c r] eqn:Eds; [discriminate Hval | ].
    inversion Hall as [|? ? Hc _]; subst.
    cbv beta iota zeta.
    destruct (is_digit_facts c Hc) as (_ & -> & ->).
    cbn [fst snd]. rewrite Hval, Hlim. f_equal. lia.
Qed.

(** ** The time-series branch *)

(** The time-series branch of [__metering_decomposition], read forwards:
    with the start time parsed, the record is its fixed fields and the
    comprehension over the items. *)
Lemma series_of_entries md fields es st dt :
  metering_fields md = Ok fields ->
  path md ["PayloadEnergyTimeSeries"; "Observation"] = Ok (PList es) ->
  es <> [] ->
  get (PDict fields) "start_time" = Ok st ->
  strptime st = Ok dt ->
  __metering_decomposition md
  = (l <- comprehension (observation_entry dt) es ;;
     Ok (with_observations fields (PList l))).
Proof.
  intros Hf Hobs Hne Hst Hdt.
  unfold __metering_decomposition.
  rewrite Hf; cbn [bind]. rewrite Hobs; cbn [bind].
  destruct es as [|e es]; [contradiction | ]. cbn [truthy].
  rewrite Hst; cbn [bind]. rewrite Hdt; cbn [bind iter].
  destruct (metering_fields_Ok _ _ Hf) as (mp & ts0 & ident & ebp & st0 & H).
  destruct H as (et & res & unit & -> & _).
  destruct (comprehension _ _); reflexivity.
Qed.

Lemma observation_entry_value dt items t v :
  observation_timestamp dt (PDict items) = Ok t ->
  item_value items = Some v ->
  observation_entry dt (PDict items) = Ok (observation t v).
Proof.
  intros Ht Hv. rewrite observation_entry_dict, Ht; cbn [bind].
  rewrite Hv. reflexivity.
Qed.

Lemma comprehension_entries dt es : forall ts vs,
  Forall2 (fun e t => observation_timestamp dt e = Ok t) es ts ->
  Forall2 (fun e v => exists items, e = PDict items /\ item_value items = Some v)
    es vs ->
  comprehension (observation_entry dt) es = Ok (observations_of ts vs).
Proof.
  induction es as [|e es IH]; intros ts vs Hts Hvs;
    inversion Hts; inversion Hvs; subst; simpl.
  - reflexivity.
  - match goal with H : exists _, _ |- _ => destruct H as (items & -> & Hv) end.
    erewrite observation_entry_value by eassumption. cbn [bind].
    erewrite IH by eassumption. reflexivity.
Qed.

Lemma timestamps_hours_after dt es ks :
  valid dt = true ->
  Forall2 (fun e k => sequence_index e = Ok k) es ks ->
  Forall (fun k => representable (wall_seconds dt + 3600 * k)) ks ->
  exists dts,
    hours_after dt ks dts
    /\ Forall2 (fun e t => observation_timestamp dt e = Ok t) es
         (map (fun dt' => PStr (isoformat dt')) dts).
Proof.
  intros Hv Hks. unfold hours_after.
  induction Hks as [|e k es ks Hk _ IH]; intros Hr.
  - exists []. split; constructor.
  - inversion Hr as [|? ? Hr0 Hr']; subst.
    destruct (IH Hr') as (dts & Hdts & Hts).
    destruct (observation_timestamp_spec dt e k Hv Hk Hr0) as (dt' & Ht & H).
    exists (dt' :: dts). split; constructor; assumption.
Qed.

(** C1. In a metering record with an [Observation] sequence whose items
    carry integer sequence attributes [ks], the timestamp of every output
    observation is the start time plus that many hours, in ISO form with
    the offset, and the observations come in the order of the items.
    The start time is parsed as an aware datetime [dt]; the timestamp for
    the index [k] is the ISO form of the valid datetime whose local clock
    is [3600 * k] seconds after the clock of [dt] and whose offset is that
    of [dt].  A start time written [YYYY-MM-DDTHH:MM:SS+HH:MM] or
    [YYYY-MM-DDTHH:MM:SS+HHMM] is parsed as the datetime it writes, and a
    sequence attribute in decimal is the integer it writes.  With the
    start time 2023-01-01T00:00:00+01:00 and the indices 0, 1, 2 the
    timestamps are 2023-01-01T00:00:00+01:00, 2023-01-01T01:00:00+01:00
    and 2023-01-01T02:00:00+01:00. *)
Theorem observation_timestamps
  (md : pyval) (fields : list (string * pyval)) (es : list pyval)
  (st : pyval) (ks : list Z) (vs : list pyval)
  (Hfields : metering_fields md = Ok fields)
  (Hobs : path md ["PayloadEnergyTimeSeries"; "Observation"] = Ok (PList es))
  (Hne : es <> [])
  (Hst : get (PDict fields) "start_time" = Ok st)
  (Hks : Forall2 (fun e k => sequence_index e = Ok k) es ks)
  (Hvs : Forall2 (fun e v => exists items,
                      e = PDict items /\ item_value items = Some v) es vs) :
  (forall dt,
      strptime st = Ok dt ->
      Forall (fun k => representable (wall_seconds dt + 3600 * k)) ks ->
      exists dts,
        hours_after dt ks dts
        /\ __metering_decomposition md
           = Ok (with_observations fields
                   (PList (observations_of
                             (map (fun dt' => PStr (isoformat dt')) dts) vs))))
  /\ (forall dt,
         valid dt = true -> utcoffset dt mod US_PER_MINUTE = 0 ->
         st = PStr (isoformat dt) \/ st = PStr (isoformat_hhmm dt) ->
         strptime st = Ok dt
         /\ (Forall (fun k => representable (wall_seconds dt + 3600 * k)) ks ->
             exists dts,
               hours_after dt ks dts
               /\ __metering_decomposition md
                  = Ok (with_observations fields
                          (PList (observations_of
                                    (map (fun dt' => PStr (isoformat dt')) dts)
                                    vs)))))
  /\ (forall e k,
         In e es -> Z.abs k < 2 ^ 4300 ->
         get e "@Sequence" = Ok (PStr (decimal k)) ->
         sequence_index e = Ok k)
  /\ (st = PStr "2023-01-01T00:00:00+01:00" -> ks = [0; 1; 2] ->
      __metering_decomposition md
      = Ok (with_observations fields
              (PList (observations_of
                        [PStr "2023-01-01T00:00:00+01:00";
                         PStr "2023-01-01T01:00:00+01:00";
                         PStr "2023-01-01T02:00:00+01:00"] vs)))).
Proof.
  assert (Hgen : forall dt,
             strptime st = Ok dt ->
             Forall (fun k => representable (wall_seconds dt + 3600 * k)) ks ->
             exists dts,
               hours_after dt ks dts
               /\ __metering_decomposition md
                  = Ok (with_observations fields
                          (PList (observations_of
                                    (map (fun dt' => PStr (isoformat dt')) dts)
                                    vs)))).
  { intros dt Hdt Hr.
    pose proof (strptime_valid _ _ Hdt) as Hv.
    destruct (timestamps_hours_after dt es ks Hv Hks Hr) as (dts & Hdts & Hts).
    exists dts. split; [exact Hdts | ].
    rewrite (series_of_entries _ _ _ _ _ Hfields Hobs Hne Hst Hdt).
    rewrite (comprehension_entries _ _ _ _ Hts Hvs). reflexivity. }
  split; [exact Hgen | split; [ | split]].
  - intros dt Hv Hoff Htext.
    assert (Hdt : strptime st = Ok dt).
    { destruct Htext as [-> | ->].
      - apply strptime_isoformat; assumption.
      - apply strptime_isoformat_hhmm; assumption. }
    split; [exact Hdt | apply Hgen, Hdt].
  - intros e k _ Hk Hs. unfold sequence_index. rewrite Hs; cbn [bind].
    apply int_decimal, Hk.
  - intros -> ->.
    assert (Hdt : strptime (PStr "2023-01-01T00:00:00+01:00") = Ok sample_start)
      by (vm_compute; reflexivity).
    rewrite (series_of_entries _ _ _ _ _ Hfields Hobs Hne Hst Hdt).
    erewrite comprehension_entries; [reflexivity | | exact Hvs].
    inversion Hks as [|e0 ? es0 ? H0 Hks0]; subst.
    inversion Hks0 as [|e1 ? es1 ? H1 Hks1]; subst.
    inversion Hks1 as [|e2 ? es2 ? H2 Hks2]; subst.
    inversion Hks2; subst.
    repeat constructor; rewrite observation_timestamp_index;
      [rewrite H0 | rewrite H1 | rewrite H2]; reflexivity.
Qed.

(** ** The value of an item *)

Lemma regular_item_value items :
  regular_item items ->
  exists v, observation_value_words items = Some v /\ item_value items = Some v.
Proof.
  unfold regular_item, observation_value_words, item_value.
  intros [(m & Hm & Ht) | (Hm & k0 & v0 & k1 & child & rest & -> & H0 & H1)].
  - rewrite Hm, Ht. eauto.
  - rewrite Hm. cbn [filter fst]. rewrite H0, H1.
    cbn [second_entry_text inner_text element_text]. unfold entry. eauto.
Qed.

(** C5, as the code has it.  In the time series of a metering record the
    output observations are the entries the items give, in their order,
    and the first item that gives none fails the record.  For an item
    whose timestamp can be computed, the value is the [Metered] field
    when the item has one that holds something.  Otherwise -- the field is
    absent or empty -- the value is the [#text] of the second entry of the
    item when that is a mapping ([None] when it has no text); when the
    second entry is no mapping the item raises [AttributeError], and with
    less than two entries [IndexError].  On a regular item -- one with a
    [Metered] that holds something, or one without [Metered] whose first
    entry is its sequence attribute and whose second is a child element
    with attributes -- this is the value in the words of the
    specification: the [Metered] field, and else the inner text of the
    first child element. *)
Theorem observation_values
  (md : pyval) (fields : list (string * pyval)) (es : list pyval)
  (st : pyval) (dt : datetime)
  (Hfields : metering_fields md = Ok fields)
  (Hobs : path md ["PayloadEnergyTimeSeries"; "Observation"] = Ok (PList es))
  (Hne : es <> [])
  (Hst : get (PDict fields) "start_time" = Ok st)
  (Hdt : strptime st = Ok dt) :
  (forall xs,
      Forall2 (fun e x => observation_entry dt e = Ok x) es xs ->
      __metering_decomposition md = Ok (with_observations fields (PList xs)))
  /\ (forall pre e post xs err,
         es = pre ++ e :: post ->
         Forall2 (fun e x => observation_entry dt e = Ok x) pre xs ->
         observation_entry dt e = Raise err ->
         __metering_decomposition md = Raise err)
  /\ (forall items t,
         observation_timestamp dt (PDict items) = Ok t ->
         (forall m,
             lookup "Metered" items = Some m -> truthy m = true ->
             observation_entry dt (PDict items) = Ok (observation t m))
         /\ ((forall m, lookup "Metered" items = Some m -> truthy m = false) ->
             (forall kv0 k1 child rest,
                 items = kv0 :: (k1, PDict child) :: rest ->
                 observation_entry dt (PDict items)
                 = Ok (observation t (entry child "#text")))
             /\ (forall kv0 k1 c rest,
                    items = kv0 :: (k1, c) :: rest -> isinstance_dict c = false ->
                    observation_entry dt (PDict items) = Raise AttributeError)
             /\ ((length items < 2)%nat ->
                 observation_entry dt (PDict items) = Raise IndexError))
         /\ (regular_item items ->
             exists v,
               observation_value_words items = Some v
               /\ observation_entry dt (PDict items) = Ok (observation t v))).
Proof.
  pose proof (series_of_entries _ _ _ _ _ Hfields Hobs Hne Hst Hdt) as Hseries.
  split; [ | split].
  - intros xs Hxs. apply comprehension_Ok in Hxs.
    rewrite Hseries, Hxs. reflexivity.
  - intros pre e post xs err -> Hpre He. apply comprehension_Ok in Hpre.
    rewrite Hseries, (comprehension_Raise _ _ _ _ _ _ Hpre He). reflexivity.
  - intros items t Ht. rewrite observation_entry_dict, Ht; cbn [bind].
    split; [ | split].
    + intros m Hm Htm. unfold item_value. rewrite Hm, Htm. reflexivity.
    + intros Hmetered.
      assert (Hv : item_value items = second_entry_text items).
      { unfold item_value. destruct (lookup "Metered" items) as [m|]; [ | reflexivity].
        rewrite (Hmetered m eq_refl). reflexivity. }
      rewrite Hv. split; [ | split].
      * intros kv0 k1 child rest ->. reflexivity.
      * intros kv0 k1 c rest -> Hc. destruct c; try discriminate; reflexivity.
      * intros Hl. destruct items as [|kv0 [|kv1 rest]]; try reflexivity.
        simpl in Hl. lia.
    + intros Hreg. destruct (regular_item_value _ Hreg) as (v & Hw & Hv).
      exists v. rewrite Hv. split; [exact Hw | reflexivity].
Qed.

(** The claim C5 as the specification words it does not hold for every
    item.  An item whose reading is a child element without attributes
    has, in the words of the specification, the text of that element as
    its value; the code raises [AttributeError] on it, and the record
    that holds it is not decomposed.  So does an item with a second
    attribute before its child element. *)
Lemma bare_text_child_has_no_value :
  (exists items,
      sample_bare_text_item = PDict items
      /\ observation_value_words items = Some (PStr "0.980")
      /\ observation_entry sample_start sample_bare_text_item = Raise AttributeError)
  /\ path sample_bare_text_series ["PayloadEnergyTimeSeries"; "Observation"]
     = Ok (PList [metered_item "0" "1.250"; sample_bare_text_item])
  /\ __metering_decomposition sample_bare_text_series = Raise AttributeError
  /\ (exists items,
         sample_two_attribute_item = PDict items
         /\ observation_value_words items = Some (PStr "0.980")
         /\ observation_entry sample_start sample_two_attribute_item
            = Raise AttributeError).
Proof.
  split; [eexists; split; [reflexivity | split; reflexivity] | ].
  split; [reflexivity | ]. split; [vm_compute; reflexivity | ].
  eexists; split; [reflexivity | split; reflexivity].
Qed.

(** ** The profiled branch *)


(** ** Sequence attributes and start times that are refused *)

(** X9. An item without the [Sequence] attribute raises [TypeError], and
    an item whose [Sequence] attribute is an ASCII text that [int]
    refuses, a decimal fraction for one, raises [ValueError]: the
    timestamp is computed before the value is looked at, whatever the
    value is. *)
Theorem sequence_attribute_errors (dt : datetime) (items : list (string * pyval)) :
  (lookup "@Sequence" items = None ->
   observation_entry dt (PDict items) = Raise TypeError)
  /\ (forall s,
         lookup "@Sequence" items = Some (PStr s) ->
         ascii_text s ->
         int_of_chars (list_ascii_of_string s) = Raise ValueError ->
         observation_entry dt (PDict items) = Raise ValueError).
Proof.
  split.
  - intros H. rewrite observation_entry_dict.
    unfold observation_timestamp. cbn [get get_default]. rewrite H. reflexivity.
  - intros s H _ Hs. rewrite observation_entry_dict.
    unfold observation_timestamp. cbn [get get_default]. rewrite H; cbn [bind int].
    rewrite Hs. reflexivity.
Qed.

(** X13. In a record with a reading to decompose, the start time has to be
    a text in the format: a record without [Start] raises [TypeError], a
    [Start] that is an ASCII text that [strptime] refuses raises
    [ValueError], and in both cases no observation is produced. *)
Theorem start_time_errors
  (md : pyval) (fields : list (string * pyval)) (st : pyval) (err : pyerr)
  (Hfields : metering_fields md = Ok fields)
  (Hst : get (PDict fields) "start_time" = Ok st)
  (Hshape : has_shape md)
  (Hascii : forall s, st = PStr s -> ascii_text s)
  (Hparse : strptime st = Raise err) :
  __metering_decomposition md = Raise err
  /\ (err = TypeError \/ err = ValueError)
  /\ (st = PNone -> err = TypeError)
  /\ (forall s, st = PStr s -> err = ValueError).
Proof.
  split; [ | split; [ | split]].
  - unfold __metering_decomposition. rewrite Hfields; cbn [bind].
    destruct Hshape as (o & Ho & [Ht | (p & Hp & Ht)]).
    + rewrite Ho; cbn [bind]. rewrite Ht, Hst; cbn [bind]. rewrite Hparse. reflexivity.
    + rewrite Ho; cbn [bind]. destruct (truthy o).
      * rewrite Hst; cbn [bind]. rewrite Hparse. reflexivity.
      * rewrite Hp; cbn [bind]. rewrite Ht, Hst; cbn [bind]. rewrite Hparse.
        reflexivity.
  - eapply strptime_Raise, Hparse.
  - intros ->. simpl in Hparse. congruence.
  - intros s ->. cbn [strptime] in Hparse. eapply strptime_chars_Raise, Hparse.
Qed.

(** ** The theorems of this part at the sample responses *)


Lemma no_data_error_witness :
  (parse_metering_poll_response (sample_response PNone) = Raise NO_DATA
   /\ forall r, parse_metering_poll_response (sample_response PNone) <> Ok r)
  /\ parse_metering_poll_response sample_empty_poll_element = Raise AttributeError.
Proof.
  split.
  - destruct (no_data_error (sample_response PNone) eq_refl) as (p & Hp & Hmapping & _).
    apply (Hmapping [("ResultDataSet", PNone)]).
    + vm_compute in Hp. injection Hp as <-. reflexivity.
    + right. exists PNone. split; reflexivity.
  - destruct (no_data_error sample_empty_poll_element eq_refl) as (p & Hp & _ & Hother).
    apply Hother. vm_compute in Hp. injection Hp as <-. reflexivity.
Defined.

Lemma acknowledgement_full_record_or_failure_witness :
  __acknowledgement_decomposition sample_acknowledgement
  = Ok (PDict [("timestamp", PStr "2023-01-02T06:15:00Z");
               ("identification", PStr "0c7d3e91");
               ("energy_business_process", PStr "BRS-NO-312");
               ("status_type", PStr "39");
               ("response_reason_type", PStr "A01");
               ("original_business_document_reference", PStr "b5a1f0d2")])
  /\ __acknowledgement_decomposition sample_headless = Raise AttributeError.
Proof.
  split.
  - exact (proj1 (acknowledgement_full_record_or_failure sample_acknowledgement)
             _ _ _ _ _ eq_refl eq_refl eq_refl eq_refl eq_refl).
  - apply (proj1 (proj2 (acknowledgement_full_record_or_failure sample_headless))).
    exists ["Header"]. split; [left; reflexivity | reflexivity].
Defined.

Lemma observation_timestamps_witness :
  strptime (PStr "2024-02-28T22:15:30-0330") = Ok sample_leap_start
  /\ (exists dts,
         hours_after sample_leap_start [0; 2; 26] dts
         /\ __metering_decomposition sample_leap_series
            = Ok (with_observations (sample_fields "2024-02-28T22:15:30-0330")
                    (PList (observations_of
                              (map (fun dt' => PStr (isoformat dt')) dts)
                              sample_values))))
  /\ __metering_decomposition sample_leap_series
     = Ok (with_observations (sample_fields "2024-02-28T22:15:30-0330")
             (PList (observations_of sample_leap_timestamps sample_values)))
  /\ sequence_index (metered_item "26" "1.100") = Ok 26
  /\ __metering_decomposition sample_series
     = Ok (with_observations (sample_fields "2023-01-01T00:00:00+01:00")
             (PList (observations_of sample_timestamps sample_values))).
Proof.
  assert (Hks : Forall2 (fun e k => sequence_index e = Ok k) sample_leap_items
                  [0; 2; 26])
    by (repeat constructor).
  assert (Hvs : Forall2 (fun e v => exists items,
                             e = PDict items /\ item_value items = Some v)
                  sample_leap_items sample_values)
    by (repeat constructor; eexists; split; reflexivity).
  destruct (observation_timestamps sample_leap_series
              (sample_fields "2024-02-28T22:15:30-0330") sample_leap_items
              (PStr "2024-02-28T22:15:30-0330") [0; 2; 26] sample_values
              eq_refl eq_refl ltac:(discriminate) eq_refl Hks Hvs)
    as (_ & Htext & Hint & _).
  destruct (Htext sample_leap_start eq_refl eq_refl
              (or_intror (eq_refl : PStr "2024-02-28T22:15:30-0330"
                                    = PStr (isoformat_hhmm sample_leap_start))))
    as (Hdt & Hout).
  split; [exact Hdt | ].
  split.
  { apply Hout. repeat constructor; vm_compute; intros H; discriminate H. }
  split; [vm_compute; reflexivity | ].
  split.
  { apply (Hint (metered_item "26" "1.100") 26).
    - right. right. left. reflexivity.
    - vm_compute. reflexivity.
    - reflexivity. }
  assert (Hks' : Forall2 (fun e k => sequence_index e = Ok k) sample_items [0; 1; 2])
    by (repeat constructor).
  assert (Hvs' : Forall2 (fun e v => exists items,
                              e = PDict items /\ item_value items = Some v)
                   sample_items sample_values)
    by (repeat constructor; eexists; split; reflexivity).
  apply (proj2 (proj2 (proj2
           (observation_timestamps sample_series
              (sample_fields "2023-01-01T00:00:00+01:00") sample_items
              (PStr "2023-01-01T00:00:00+01:00") [0; 1; 2] sample_values
              eq_refl eq_refl ltac:(discriminate) eq_refl Hks' Hvs'))));
    reflexivity.
Defined.

Lemma observation_values_witness :
  __metering_decomposition sample_series
  = Ok (with_observations (sample_fields "2023-01-01T00:00:00+01:00")
          (PList (observations_of sample_timestamps sample_values)))
  /\ (observation_value_words
        [("@Sequence", PStr "1");
         ("Estimated", PDict [("@quality", PStr "56"); ("#text", PStr "0.980")])]
      = Some (PStr "0.980")
      /\ observation_entry sample_start (estimated_item "1" "0.980")
         = Ok (observation (PStr "2023-01-01T01:00:00+01:00") (PStr "0.980")))
  /\ __metering_decomposition sample_bare_text_series = Raise AttributeError.
Proof.
  destruct (observation_values sample_series
              (sample_fields "2023-01-01T00:00:00+01:00") sample_items
              (PStr "2023-01-01T00:00:00+01:00") sample_start
              eq_refl eq_refl ltac:(discriminate) eq_refl eq_refl)
    as (Hall & _ & Hitem).
  split.
  { apply Hall. repeat constructor. }
  split.
  { destruct (proj2 (proj2
                (Hitem [("@Sequence", PStr "1");
                        ("Estimated",
                         PDict [("@quality", PStr "56"); ("#text", PStr "0.980")])]
                   (PStr "2023-01-01T01:00:00+01:00") eq_refl)))
      as (v & Hwords & Hentry).
    - right. split; [reflexivity | ].
      repeat eexists; reflexivity.
    - vm_compute in Hwords. injection Hwords as <-.
      split; [reflexivity | exact Hentry]. }
  destruct (observation_values sample_bare_text_series
              (sample_fields "2023-01-01T00:00:00+01:00")
              [metered_item "0" "1.250"; sample_bare_text_item]
              (PStr "2023-01-01T00:00:00+01:00") sample_start
              eq_refl eq_refl ltac:(discriminate) eq_refl eq_refl)
    as (_ & Hfirst & Hitem').
  apply (Hfirst [metered_item "0" "1.250"] sample_bare_text_item []
           [observation (PStr "2023-01-01T00:00:00+01:00") (PStr "1.250")]).
  - reflexivity.
  - repeat constructor.
  - apply (proj1 (proj2 (proj1 (proj2
             (Hitem' [("@Sequence", PStr "1"); ("Estimated", PStr "0.980")]
                (PStr "2023-01-01T01:00:00+01:00") eq_refl))
             ltac:(intros m H; discriminate H)))
             ("@Sequence", PStr "1") "Estimated" (PStr "0.980") []);
      reflexivity.
Defined.


Lemma sequence_attribute_errors_witness :
  observation_entry sample_start (PDict [("Metered", PStr "1.250")])
  = Raise TypeError
  /\ observation_entry sample_start
       (PDict [("@Sequence", PStr "1.5"); ("Metered", PStr "1.250")])
     = Raise ValueError.
Proof.
  split.
  - apply (proj1 (sequence_attribute_errors sample_start
                    [("Metered", PStr "1.250")])).
    reflexivity.
  - apply (proj2 (sequence_attribute_errors sample_start
                    [("@Sequence", PStr "1.5"); ("Metered", PStr "1.250")]) "1.5").
    + reflexivity.
    + reflexivity.
    + vm_compute. reflexivity.
Defined.

Lemma start_time_errors_witness :
  __metering_decomposition (sample_profiled "2023-01-01 00:00:00") = Raise ValueError
  /\ (ValueError = TypeError \/ ValueError = ValueError)
  /\ (PStr "2023-01-01 00:00:00" = PNone -> ValueError = TypeError)
  /\ (forall s, PStr "2023-01-01 00:00:00" = PStr s -> ValueError = ValueError).
Proof.
  apply (start_time_errors (sample_profiled "2023-01-01 00:00:00")
           (sample_fields "2023-01-01 00:00:00") (PStr "2023-01-01 00:00:00")
           ValueError).
  - reflexivity.
  - reflexivity.
  - exists PNone. split; [reflexivity | ]. right.
    eexists. split; reflexivity.
  - intros s [= <-]. reflexivity.
  - vm_compute. reflexivity.
Defined.
